(** * todoServer: a shallow embedding of the HTTP front-end of the to-do list

    The development follows the two Go files of the server: the handlers
    ([rootHandler], [todoRouter], [getAllHandler], [getOneHandler],
    [deleteHandler], [pathHandler], [addHandler], [validateID]) and the
    wiring ([newMux], [replyTextContent], [replyJSONContent], [replyError]).

    Go's [int] is taken as the 64-bit signed integer and is written as [Z]
    with its bounds spelled out where the code depends on them (in
    [strconv.Atoi]).  Effects (the mutex, the to-do file, the logger, the
    clock) are the constructors of a small program type [Prog], which has a
    sequential interpreter ([run]) and a one-step interpreter ([step1]) used
    for interleavings of requests. *)

From Stdlib Require Import ZArith String Ascii List Bool Lia.
From stdpp Require Import base option list gmap strings.
Import ListNotations.

Local Open Scope string_scope.
Local Open Scope list_scope.
Local Open Scope Z_scope.

(** ** Go values used by the handlers *)

Module Go.

(** [int] on a 64-bit platform. *)
Definition intSize : Z := 64.
Definition maxUint64 : Z := 2 ^ 64 - 1.
Definition maxInt : Z := 2 ^ 63 - 1.
Definition minInt : Z := - 2 ^ 63.

(** Two's complement wrap-around of [int] arithmetic. *)
Definition wrap (z : Z) : Z := (z - minInt) mod 2 ^ intSize + minInt.

(** [len] of a slice, as a Go [int]. *)
Definition len {A} (l : list A) : Z := Z.of_nat (List.length l).

(** The slice expression [s[lo:hi]]: [None] stands for the run-time panic
    "slice bounds out of range".  The upper bound is checked against the
    length; Go checks it against the capacity, which is at least the
    length, so a slice expression accepted here is accepted by Go. *)
Definition slice {A} (s : list A) (lo hi : Z) : option (list A) :=
  if (0 <=? lo) && (lo <=? hi) && (hi <=? len s)
  then Some (firstn (Z.to_nat (hi - lo)) (skipn (Z.to_nat lo) s))
  else None.

(** *** strconv.Atoi *)

Inductive NumErrKind := ErrSyntax | ErrRange.

(** [*strconv.NumError]: the failing function, the input and the cause. *)
Record NumError := mkNumError
  { Func : string; Num : string; Err : NumErrKind }.

Definition syntaxError (fn str : string) : NumError := mkNumError fn str ErrSyntax.
Definition rangeError (fn str : string) : NumError := mkNumError fn str ErrRange.

Definition is_digit (ch : ascii) : bool :=
  let n := Z.of_N (N_of_ascii ch) in (48 <=? n) && (n <=? 57).

Definition digit_val (ch : ascii) : Z := Z.of_N (N_of_ascii ch) - 48.

(** The digit loop of [ParseUint] in base 10 with [bitSize] 64: a byte
    that is not a digit is a syntax error, a value above [maxUint64] is a
    range error, whichever comes first from the left. *)
Fixpoint parseDigits (s : string) (n : Z) : NumErrKind + Z :=
  match s with
  | EmptyString => inr n
  | String ch rest =>
      if is_digit ch then
        let n1 := n * 10 + digit_val ch in
        if n1 >? maxUint64 then inl ErrRange else parseDigits rest n1
      else inl ErrSyntax
  end.

(** [strconv.Atoi]: an optional sign, then at least one decimal digit,
    and a value that fits [int].  For inputs shorter than 19 bytes Go
    takes a fast path without range checks; on those inputs no range
    error is possible and both paths give the same result, so one
    definition covers them. *)
Definition Atoi (s : string) : NumError + Z :=
  let fnAtoi := "Atoi" in
  match s with
  | EmptyString => inl (syntaxError fnAtoi s)
  | String c0 rest =>
      let neg := Ascii.eqb c0 "-" in
      let digits := if Ascii.eqb c0 "-" || Ascii.eqb c0 "+" then rest else s in
      match digits with
      | EmptyString => inl (syntaxError fnAtoi s)
      | _ =>
          match parseDigits digits 0 with
          | inl k => inl (mkNumError fnAtoi s k)
          | inr un =>
              if negb neg && (un >=? 2 ^ 63) then inl (rangeError fnAtoi s)
              else if neg && (un >? 2 ^ 63) then inl (rangeError fnAtoi s)
              else inr (if neg then - un else un)
          end
      end
  end.

End Go.

(** ** The data model *)

(** A point in time, as read from the clock. *)
Definition Time := nat.

Module todo.

(** Modelled from the spec: the item type of the Item Store Adapter
    (package [todo], not part of this repository's sources).  An item is a
    task description, a completion flag and a creation timestamp. *)
Record item := mkItem
  { Task : string; Done : bool; CreatedAt : Time }.

(** Modelled from the spec: [todo.List], an ordered sequence of items;
    the identifier of an item is its 1-based position. *)
Abbreviation List := (list item).

(** Modelled from the spec: [List.Add] appends a new incomplete item with
    the current timestamp. *)
Definition Add (l : List) (task : string) (now : Time) : List :=
  l ++ [mkItem task false now].

(** Modelled from the spec: [List.Delete] removes the item at the 1-based
    position [i] and shifts the later ones down.  A position outside the
    list leaves the list as it is. *)
Definition Delete (l : List) (i : Z) : List :=
  if (1 <=? i) && (i <=? Go.len l)
  then firstn (Z.to_nat (i - 1)) l ++ skipn (Z.to_nat i) l
  else l.

Definition complete_item (it : item) : item :=
  mkItem (Task it) true (CreatedAt it).

(** Modelled from the spec: [List.Complete] marks the item at the 1-based
    position [i] as done.  A position outside the list leaves the list as
    it is. *)
Definition Complete (l : List) (i : Z) : List :=
  if (1 <=? i) && (i <=? Go.len l)
  then alter complete_item (Z.to_nat (i - 1)) l
  else l.

End todo.

(** ** Errors of the server *)

(** The two sentinel errors created with [errors.New]. *)
Inductive Sentinel := ErrNoFound | ErrInvalidData.

Definition Sentinel_eqb (a b : Sentinel) : bool :=
  match a, b with
  | ErrNoFound, ErrNoFound | ErrInvalidData, ErrInvalidData => true
  | _, _ => false
  end.

(** What follows the wrapped sentinel in the three [fmt.Errorf] calls of
    [validateID], kept as data instead of formatted text. *)
Inductive Detail :=
| InvalidID (cause : Go.NumError)      (* "%w: Invalid ID: %s" *)
| InvalidIDLessThanOne                 (* "%w: Invalid ID: Less than one" *)
| IDNotFound (id : Z).                 (* "%w: ID %d not found" *)

(** An error built by [fmt.Errorf] with one [%w] verb. *)
Record error := Errorf { wrapped : Sentinel; detail : Detail }.

(** [errors.Is]: the error built by [Errorf] is never itself a sentinel, so
    the test is on the error it wraps. *)
Definition errors_Is (err : error) (target : Sentinel) : bool :=
  Sentinel_eqb (wrapped err) target.

(** ** validateID *)

(** [validateID] returns the pair of Go: the identifier and the error
    ([None] for [nil]). *)
Definition validateID (path : string) (list : todo.List) : Z * option error :=
  match Go.Atoi path with
  | inl err => (0, Some (Errorf ErrInvalidData (InvalidID err)))
  | inr id =>
      if id <? 1 then (0, Some (Errorf ErrInvalidData InvalidIDLessThanOne))
      else if id >? Go.len list then (id, Some (Errorf ErrNoFound (IDNotFound id)))
      else (id, None)
  end.

(** ** net/http and encoding/json, as far as the handlers use them *)

Module json.

(** A JSON value as the decoder scans it; object members are kept in
    their order of appearance, duplicates included. *)
#[warnings="-register-all"]
Inductive value :=
| Null
| Bool (b : bool)
| Number (literal : string)
| Str (s : string)
| Array (elems : list value)
| Object (members : list (string * value)).

(** What a request body is to [json.NewDecoder(r.Body).Decode]: either
    the stream does not start with a well-formed JSON value (a syntax
    error, or end of input), or [v] is the first value on it. *)
Inductive stream :=
| Malformed (err : string)
| Value (v : value).

(** The name of the JSON kind in an [*json.UnmarshalTypeError]. *)
Definition kind_name (v : value) : string :=
  match v with
  | Null => "null" | Bool _ => "bool" | Number _ => "number"
  | Str _ => "string" | Array _ => "array" | Object _ => "object"
  end.

Inductive DecodeError :=
| SyntaxError (err : string)
| UnmarshalTypeError (Value : string) (Field : string).

Definition is_lower (c : ascii) : bool :=
  let n := N_of_ascii c in (97 <=? n)%N && (n <=? 122)%N.

Definition to_upper (c : ascii) : ascii :=
  if is_lower c then ascii_of_N (N_of_ascii c - 32) else c.

(** [foldName]: the key under which a member name is looked up when no
    field has exactly that name.  ASCII letters fold to upper case; the
    two runes outside ASCII whose fold set holds an ASCII letter,
    U+017F (bytes C5 BF) and U+212A (bytes E2 84 AA), fold to [S] and
    [K].  Every other rune folds to a rune outside ASCII and is left in
    place here, which does not change a comparison with the folded name of
    an ASCII field. *)
Fixpoint foldName (s : string) : string :=
  match s with
  | EmptyString => EmptyString
  | String c rest =>
      match rest with
      | String c1 rest1 =>
          if Ascii.eqb c "197" && Ascii.eqb c1 "191"
          then String "S" (foldName rest1)
          else
            match rest1 with
            | String c2 rest2 =>
                if Ascii.eqb c "226" && Ascii.eqb c1 "132" && Ascii.eqb c2 "170"
                then String "K" (foldName rest2)
                else String (to_upper c) (foldName rest)
            | EmptyString => String (to_upper c) (foldName rest)
            end
      | EmptyString => String (to_upper c) EmptyString
      end
  end.

(** Does the member name [key] select the struct field tagged [name]?  An
    exact match, or else a match of the folded names. *)
Definition selects (name key : string) : bool :=
  String.eqb key name || String.eqb (foldName key) (foldName name).

(** [saveError]: the first error of a decode is the one reported. *)
Definition saveError (saved : option DecodeError) (e : DecodeError) : option DecodeError :=
  match saved with Some _ => saved | None => Some e end.

(** Decoding a JSON value into a field of Go type [string]: a string is
    stored, [null] leaves the field alone, anything else is a type error
    (the decode goes on). *)
Definition decode_string (field : string) (v : value)
    (cur : string) (saved : option DecodeError) : string * option DecodeError :=
  match v with
  | Str s => (s, saved)
  | Null => (cur, saved)
  | _ => (cur, saveError saved (UnmarshalTypeError (kind_name v) field))
  end.

End json.

Module http.

Definition MethodGet := "GET".
Definition MethodPost := "POST".
Definition MethodPatch := "PATCH".
Definition MethodDelete := "DELETE".

Definition StatusOK : Z := 200.
Definition StatusCreated : Z := 201.
Definition StatusNoContent : Z := 204.
Definition StatusBadRequest : Z := 400.
Definition StatusNotFound : Z := 404.
Definition StatusMethodNotAllowed : Z := 405.
Definition StatusInternalServerError : Z := 500.

(** [http.StatusText] on the codes the server sends; the empty string
    for a code it does not know. *)
Definition StatusText (code : Z) : string :=
  if code =? 200 then "OK"
  else if code =? 201 then "Created"
  else if code =? 204 then "No Content"
  else if code =? 400 then "Bad Request"
  else if code =? 404 then "Not Found"
  else if code =? 405 then "Method Not Allowed"
  else if code =? 500 then "Internal Server Error"
  else "".

(** [url.URL]: the path, and the query as [URL.Query()] parses it
    ([url.Values], a map from a key to its values). *)
Record URL := mkURL
  { Path : string; Query : gmap string (list string) }.

Record Request := mkRequest
  { Method : string; Url : URL; Body : json.stream }.

(** What a handler has written to its [ResponseWriter] when it returns:
    the header map, the status line and the body. *)
Record Response := mkResponse
  { Header : gmap string string; Status : Z; Content : string }.

Definition newline : string := String "010" EmptyString.

(** [http.Error]: a plain-text reply whose body is the text and a
    newline. *)
Definition Error (error : string) (code : Z) : Response :=
  mkResponse
    (<["X-Content-Type-Options" := "nosniff"]>
       (<["Content-Type" := "text/plain; charset=utf-8"]> ∅))
    code (error ++ newline)%string.

Definition NotFound : Response := Error "404 page not found" StatusNotFound.

End http.

(** [strings.TrimPrefix]. *)
Fixpoint TrimPrefix (s prefix : string) : string :=
  match prefix, s with
  | EmptyString, _ => s
  | String p prefix', String c s' =>
      if Ascii.eqb p c && String.prefix prefix' s' then TrimPrefix s' prefix' else s
  | String _ _, EmptyString => s
  end.

(** ** The response envelope and log lines *)

(** Modelled from the spec: [todoResponse], the response envelope, declared
    in a file of the repository that is not among the sources.  It wraps the
    sub-sequence of items to serialize. *)
Record todoResponse := mkTodoResponse { Results : todo.List }.

(** The last argument of [replyError], kept as data. *)
Inductive Message :=
| MsgText (s : string)
| MsgError (e : error)                        (* err.Error() of validateID *)
| MsgInvalidJSON (e : json.DecodeError).      (* "Invalid JSON: %v" *)

(** One line of [log.Printf("%s %s: Error: %d %s", ...)]. *)
Record LogLine := mkLogLine
  { log_url : http.URL; log_method : string; log_status : Z; log_message : Message }.

(** ** Programs with effects *)

(** A [sync.Locker] is known by its identity. *)
Definition Locker := nat.

(** The functions of the server and of the store adapter; [Call f] marks
    the entry into [f] in the trace of a run and has no other effect. *)
Inductive Fn :=
| FrootHandler | FtodoRouter | FgetAllHandler | FgetOneHandler
| FdeleteHandler | FpathHandler | FaddHandler | FvalidateID
| FListAdd | FListDelete | FListComplete.

(** A program is a tree of effects: locking, the two file operations of the
    store adapter, the clock, the logger and the JSON encoder, each with the
    continuation that receives its result. *)
Inductive Prog (A : Type) : Type :=
| Ret (a : A)
| Panic
| Call (f : Fn) (k : Prog A)
| Lock (l : Locker) (k : Prog A)
| Unlock (l : Locker) (k : Prog A)
| ListGet (file : string) (k : string + todo.List -> Prog A)
| ListSave (file : string) (l : todo.List) (k : option string -> Prog A)
| TimeNow (k : Time -> Prog A)
| LogPrintf (line : LogLine) (k : Prog A)
| Marshal (resp : todoResponse) (k : string + string -> Prog A).

Arguments Ret {A} a.
Arguments Panic {A}.
Arguments Call {A} f k.
Arguments Lock {A} l k.
Arguments Unlock {A} l k.
Arguments ListGet {A} file k.
Arguments ListSave {A} file l k.
Arguments TimeNow {A} k.
Arguments LogPrintf {A} line k.
Arguments Marshal {A} resp k.

Fixpoint bind {A B} (p : Prog A) (f : A -> Prog B) : Prog B :=
  match p with
  | Ret a => f a
  | Panic => Panic
  | Call g k => Call g (bind k f)
  | Lock l k => Lock l (bind k f)
  | Unlock l k => Unlock l (bind k f)
  | ListGet file k => ListGet file (fun r => bind (k r) f)
  | ListSave file l k => ListSave file l (fun r => bind (k r) f)
  | TimeNow k => TimeNow (fun t => bind (k t) f)
  | LogPrintf line k => LogPrintf line (bind k f)
  | Marshal resp k => Marshal resp (fun r => bind (k r) f)
  end.

Notation "x <- p ;;; q" := (bind p (fun x => q))
  (at level 100, p at level 99, q at level 200, right associativity).
Notation "p ;;; q" := (bind p (fun _ => q))
  (at level 100, q at level 200, right associativity).

(** [defer d; body]: [d] runs when [body] returns and also when it
    panics. *)
Fixpoint defer {A} (d : Prog unit) (body : Prog A) : Prog A :=
  match body with
  | Ret a => d ;;; Ret a
  | Panic => d ;;; Panic
  | Call g k => Call g (defer d k)
  | Lock l k => Lock l (defer d k)
  | Unlock l k => Unlock l (defer d k)
  | ListGet file k => ListGet file (fun r => defer d (k r))
  | ListSave file l k => ListSave file l (fun r => defer d (k r))
  | TimeNow k => TimeNow (fun t => defer d (k t))
  | LogPrintf line k => LogPrintf line (defer d k)
  | Marshal resp k => Marshal resp (fun r => defer d (k r))
  end.

(** ** The world a program runs in *)

(** Modelled from the spec: what the store adapter finds at a path.  Either
    the file holds a list, or loading it fails (I/O error, malformed
    storage) with the given error text. *)
Inductive FileData :=
| Stored (l : todo.List)
| Unreadable (err : string).

(** One effect that happened, with its result. *)
Inductive Event :=
| EvCall (f : Fn)
| EvLock (l : Locker)
| EvUnlock (l : Locker)
| EvGet (file : string) (r : string + todo.List)
| EvSave (file : string) (l : todo.List) (r : option string)
| EvNow (t : Time)
| EvLog (line : LogLine)
| EvMarshal (resp : todoResponse) (r : string + string).

Record World := mkWorld
  { files : string -> FileData;          (* the file system *)
    write_error : string -> option string; (* paths that cannot be written, with the error *)
    encoder : todoResponse -> string + string; (* json.Marshal on envelopes: error or bytes *)
    held : list Locker;                  (* the mutexes that are locked *)
    clock : Time;
    logged : list LogLine;               (* oldest first *)
    trace : list Event }.                (* oldest first *)

Definition record (e : Event) (w : World) : World :=
  mkWorld (files w) (write_error w) (encoder w) (held w) (clock w) (logged w)
          (trace w ++ [e]).

Definition is_held (l : Locker) (w : World) : bool :=
  existsb (Nat.eqb l) (held w).

Definition acquire (l : Locker) (w : World) : World :=
  record (EvLock l)
    (mkWorld (files w) (write_error w) (encoder w) (l :: held w) (clock w)
             (logged w) (trace w)).

Definition release (l : Locker) (w : World) : World :=
  record (EvUnlock l)
    (mkWorld (files w) (write_error w) (encoder w)
             (List.filter (fun x => negb (Nat.eqb l x)) (held w)) (clock w)
             (logged w) (trace w)).

(** Modelled from the spec: [List.Get] loads the list from the file, or
    fails. *)
Definition load (file : string) (w : World) : string + todo.List :=
  match files w file with
  | Stored l => inr l
  | Unreadable err => inl err
  end.

Definition write_file (file : string) (l : todo.List) (w : World) : World :=
  mkWorld (fun f => if String.eqb f file then Stored l else files w f)
          (write_error w) (encoder w) (held w) (clock w) (logged w) (trace w).

(** Modelled from the spec: [List.Save] overwrites the whole file with the
    list, or fails; a failed save is taken to leave the file as it was. *)
Definition save (file : string) (l : todo.List) (w : World) : option string * World :=
  match write_error w file with
  | Some err => (Some err, record (EvSave file l (Some err)) w)
  | None => (None, record (EvSave file l None) (write_file file l w))
  end.


Definition tick (w : World) : World :=
  record (EvNow (clock w))
    (mkWorld (files w) (write_error w) (encoder w) (held w) (S (clock w))
             (logged w) (trace w)).

Definition write_log (line : LogLine) (w : World) : World :=
  record (EvLog line)
    (mkWorld (files w) (write_error w) (encoder w) (held w) (clock w)
             (logged w ++ [line]) (trace w)).

(** ** Running a program *)

(** How a run on its own ends: it returns, it panics, it waits for a mutex
    that nobody will release, or the runtime stops it (unlocking a mutex
    that is not locked is a fatal error). *)
Inductive Outcome (A : Type) : Type :=
| Returned (a : A)
| Panicked
| Blocked
| Fatal.

Arguments Returned {A} a.
Arguments Panicked {A}.
Arguments Blocked {A}.
Arguments Fatal {A}.

Fixpoint run {A} (p : Prog A) (w : World) : Outcome A * World :=
  match p with
  | Ret a => (Returned a, w)
  | Panic => (Panicked, w)
  | Call f k => run k (record (EvCall f) w)
  | Lock l k => if is_held l w then (Blocked, w) else run k (acquire l w)
  | Unlock l k => if is_held l w then run k (release l w) else (Fatal, w)
  | ListGet file k =>
      let r := load file w in run (k r) (record (EvGet file r) w)
  | ListSave file l k =>
      let rw := save file l w in run (k (fst rw)) (snd rw)
  | TimeNow k => run (k (clock w)) (tick w)
  | LogPrintf line k => run k (write_log line w)
  | Marshal resp k =>
      let r := encoder w resp in run (k r) (record (EvMarshal resp r) w)
  end.

(** One effect of a program; [None] when the program has ended or cannot
    move in this world. *)
Definition step1 {A} (p : Prog A) (w : World) : option (Prog A * World) :=
  match p with
  | Ret _ | Panic => None
  | Call f k => Some (k, record (EvCall f) w)
  | Lock l k => if is_held l w then None else Some (k, acquire l w)
  | Unlock l k => if is_held l w then Some (k, release l w) else None
  | ListGet file k =>
      let r := load file w in Some (k r, record (EvGet file r) w)
  | ListSave file l k =>
      let rw := save file l w in Some (k (fst rw), snd rw)
  | TimeNow k => Some (k (clock w), tick w)
  | LogPrintf line k => Some (k, write_log line w)
  | Marshal resp k =>
      let r := encoder w resp in Some (k r, record (EvMarshal resp r) w)
  end.

(** ** The reply functions *)

Definition Handler := http.Request -> Prog http.Response.

Definition replyTextContent (r : http.Request) (status : Z) (content : string)
    : Prog http.Response :=
  Ret (http.mkResponse (<["Content-Type" := "text/plain"]> ∅) status content).

Definition replyError (r : http.Request) (status : Z) (message : Message)
    : Prog http.Response :=
  LogPrintf (mkLogLine (http.Url r) (http.Method r) status message)
    (Ret (http.Error (http.StatusText status) status)).

Definition replyJSONContent (r : http.Request) (status : Z) (resp : todoResponse)
    : Prog http.Response :=
  Marshal resp (fun res =>
    match res with
    | inl err => replyError r http.StatusInternalServerError (MsgText err)
    | inr body =>
        Ret (http.mkResponse (<["Content-Type" := "application/json"]> ∅) status body)
    end).

(** ** The handlers *)

Definition rootHandler : Handler := fun r =>
  Call FrootHandler
    (if negb (String.eqb (http.Path (http.Url r)) "/")
     then replyError r http.StatusNotFound (MsgText "")
     else
       let content := "There's an API here" in
       replyTextContent r http.StatusOK content).

Definition getAllHandler (r : http.Request) (list : todo.List) : Prog http.Response :=
  Call FgetAllHandler
    (let resp := mkTodoResponse list in
     replyJSONContent r http.StatusOK resp).

Definition getOneHandler (r : http.Request) (list : todo.List) (id : Z)
    : Prog http.Response :=
  Call FgetOneHandler
    (match Go.slice list (Go.wrap (id - 1)) id with
     | None => Panic
     | Some results =>
         let resp := mkTodoResponse results in
         replyJSONContent r http.StatusOK resp
     end).

Definition deleteHandler (r : http.Request) (list : todo.List) (id : Z)
    (todoFile : string) : Prog http.Response :=
  Call FdeleteHandler
    (Call FListDelete
       (let list := todo.Delete list id in
        ListSave todoFile list (fun err =>
          match err with
          | Some e => replyError r http.StatusInternalServerError (MsgText e)
          | None => replyTextContent r http.StatusNoContent ""
          end))).

Definition pathHandler (r : http.Request) (list : todo.List) (id : Z)
    (todoFile : string) : Prog http.Response :=
  Call FpathHandler
    (let q := http.Query (http.Url r) in
     match q !! "complete" with
     | None =>
         let message := "Missing query param 'complete'" in
         replyError r http.StatusBadRequest (MsgText message)
     | Some _ =>
         Call FListComplete
           (let list := todo.Complete list id in
            ListSave todoFile list (fun err =>
              match err with
              | Some e => replyError r http.StatusInternalServerError (MsgText e)
              | None => replyTextContent r http.StatusNoContent ""
              end))
     end).

(** [Decode] into [struct { Task string `json:"task"` }]: the value of
    [Task] after the decode, and the error it returns. *)
Definition Decode_item (body : json.stream) : string * option json.DecodeError :=
  match body with
  | json.Malformed err => ("", Some (json.SyntaxError err))
  | json.Value (json.Object members) =>
      fold_left
        (fun (acc : string * option json.DecodeError) (m : string * json.value) =>
           if json.selects "task" (fst m)
           then json.decode_string "task" (snd m) (fst acc) (snd acc)
           else acc)
        members ("", None)
  | json.Value json.Null => ("", None)
  | json.Value v => ("", Some (json.UnmarshalTypeError (json.kind_name v) ""))
  end.

Definition addHandler (r : http.Request) (list : todo.List) (todoFile : string)
    : Prog http.Response :=
  Call FaddHandler
    (let item := Decode_item (http.Body r) in
     match snd item with
     | Some err => replyError r http.StatusBadRequest (MsgInvalidJSON err)
     | None =>
         Call FListAdd
           (TimeNow (fun now =>
              let list := todo.Add list (fst item) now in
              ListSave todoFile list (fun err =>
                match err with
                | Some e => replyError r http.StatusInternalServerError (MsgText e)
                | None => replyTextContent r http.StatusCreated ""
                end)))
     end).

(** [todoRouter]: lock, load, dispatch on path and method; the deferred
    unlock runs on every way out. *)
Definition todoRouter (todoFile : string) (l : Locker) : Handler := fun r =>
  Call FtodoRouter
    (Lock l
       (defer (Unlock l (Ret tt))
          (ListGet todoFile (fun res =>
             match res with
             | inl err => replyError r http.StatusInternalServerError (MsgText err)
             | inr list =>
                 if String.eqb (http.Path (http.Url r)) ""
                 then
                   if String.eqb (http.Method r) http.MethodGet
                   then getAllHandler r list
                   else if String.eqb (http.Method r) http.MethodPost
                   then addHandler r list todoFile
                   else
                     let message := "Method not supported" in
                     replyError r http.StatusMethodNotAllowed (MsgText message)
                 else
                   Call FvalidateID
                     (match validateID (http.Path (http.Url r)) list with
                      | (id, Some err) =>
                          if errors_Is err ErrNoFound
                          then replyError r http.StatusNotFound (MsgError err)
                          else replyError r http.StatusBadRequest (MsgError err)
                      | (id, None) =>
                          if String.eqb (http.Method r) http.MethodGet
                          then getOneHandler r list id
                          else if String.eqb (http.Method r) http.MethodDelete
                          then deleteHandler r list id todoFile
                          else if String.eqb (http.Method r) http.MethodPatch
                          then pathHandler r list id todoFile
                          else
                            let message := "Method not supported" in
                            replyError r http.StatusMethodNotAllowed (MsgText message)
                      end)
             end)))).

(** ** The multiplexer *)

(** [http.StripPrefix]; the escaped form of the path ([RawPath]) is taken
    to be unset. *)
Definition StripPrefix (prefix : string) (h : Handler) : Handler :=
  if String.eqb prefix "" then h
  else fun r =>
    let p := TrimPrefix (http.Path (http.Url r)) prefix in
    if (String.length p <? String.length (http.Path (http.Url r)))%nat
    then h (http.mkRequest (http.Method r)
                           (http.mkURL p (http.Query (http.Url r)))
                           (http.Body r))
    else Ret http.NotFound.

Definition ends_with_slash (s : string) : bool :=
  match String.get (String.length s - 1) s with
  | Some c => Ascii.eqb c "/"
  | None => false
  end.

(** A pattern that ends in a slash names a subtree, any other pattern one
    path. *)
Definition pattern_matches (pattern path : string) : bool :=
  if ends_with_slash pattern then String.prefix pattern path
  else String.eqb pattern path.

(** The handler of the longest pattern that matches; request paths are
    taken as the server has cleaned them (the redirects of [ServeMux] for
    unclean paths are not part of the model). *)
Fixpoint ServeMux_match (routes : list (string * Handler)) (path : string)
    (best : option (string * Handler)) : option (string * Handler) :=
  match routes with
  | [] => best
  | (pattern, h) :: rest =>
      let better :=
        match best with
        | Some (bp, _) => (String.length bp <? String.length pattern)%nat
        | None => true
        end in
      if pattern_matches pattern path && better
      then ServeMux_match rest path (Some (pattern, h))
      else ServeMux_match rest path best
  end.

Definition ServeMux (routes : list (string * Handler)) : Handler := fun r =>
  match ServeMux_match routes (http.Path (http.Url r)) None with
  | Some (_, h) => h r
  | None => Ret http.NotFound
  end.

(** The mutex that [newMux] allocates: the only one of the process. *)
Definition mu : Locker := 0%nat.

Definition newMux (todoFile : string) : Handler :=
  let t := todoRouter todoFile mu in
  ServeMux
    [ ("/", rootHandler);
      ("/todo", StripPrefix "/todo" t);
      ("/todo/", StripPrefix "/todo/" t) ].

(** ** Observing a run *)

(** The events a run has added to the trace of the world it started in. *)
Definition events_since (w w' : World) : list Event :=
  skipn (List.length (trace w)) (trace w').

Definition is_save (e : Event) : bool :=
  match e with EvSave _ _ _ => true | _ => false end.

Definition is_call_of (g : Fn -> bool) (e : Event) : bool :=
  match e with EvCall f => g f | _ => false end.

(** Everything the router can dispatch to: the five handlers, the
    validator and the mutators of the store adapter. *)
Definition dispatched (f : Fn) : bool :=
  match f with FtodoRouter | FrootHandler => false | _ => true end.

Definition is_ListComplete (f : Fn) : bool :=
  match f with FListComplete => true | _ => false end.

(** The item at a 1-based position, if the position is in the list. *)
Definition at_position (l : todo.List) (p : Z) : option todo.item :=
  if 1 <=? p then l !! Z.to_nat (p - 1) else None.

(** The world after a save that succeeded. *)
Definition saved (file : string) (l : todo.List) (w : World) : World :=
  record (EvSave file l None) (write_file file l w).

(** The world after the router has taken the lock and loaded the file. *)
Definition loaded (todoFile : string) (l : Locker) (w : World) : World :=
  record (EvGet todoFile (load todoFile w))
    (acquire l (record (EvCall FtodoRouter) w)).

(** ** Sample data *)

Module Sample.

(** A world at rest: every path holds [l], writes succeed, the encoder
    answers with a fixed text, no mutex is held. *)
Definition world (l : todo.List) : World :=
  mkWorld (fun _ => Stored l) (fun _ => None) (fun _ => inr "{}") [] 7%nat [] [].

Definition milk : todo.item := todo.mkItem "buy milk" false 1%nat.
Definition eggs : todo.item := todo.mkItem "buy eggs" true 2%nat.

Definition request (method path : string) (query : gmap string (list string))
    (body : json.stream) : http.Request :=
  http.mkRequest method (http.mkURL path query) body.

Definition no_body : json.stream := json.Malformed "EOF".

End Sample.

(** The plain-text reply of [replyTextContent]. *)
Definition text_reply (status : Z) (content : string) : http.Response :=
  http.mkResponse (<["Content-Type" := "text/plain"]> ∅) status content.

(** The JSON reply of [replyJSONContent]. *)
Definition json_reply (status : Z) (body : string) : http.Response :=
  http.mkResponse (<["Content-Type" := "application/json"]> ∅) status body.

(** ** Two requests at once *)

(** Two requests served by two goroutines over one world.  A schedule says
    which of the two moves next ([true] for the first); following it fails
    when the chosen one has ended or waits for the mutex. *)
Fixpoint interleave {A} (schedule : list bool) (p1 p2 : Prog A) (w : World)
    : option (Prog A * Prog A * World) :=
  match schedule with
  | [] => Some (p1, p2, w)
  | true :: rest =>
      match step1 p1 w with
      | Some (p1', w') => interleave rest p1' p2 w'
      | None => None
      end
  | false :: rest =>
      match step1 p2 w with
      | Some (p2', w') => interleave rest p1 p2' w'
      | None => None
      end
  end.

(** The lists that the loads among the events returned, oldest first. *)
Fixpoint loads (es : list Event) : list (string + todo.List) :=
  match es with
  | [] => []
  | EvGet _ r :: rest => r :: loads rest
  | _ :: rest => loads rest
  end.

(** The request as [StripPrefix] hands it to the router. *)
Definition stripped (r : http.Request) : http.Request :=
  http.mkRequest (http.Method r) (http.mkURL "" (http.Query (http.Url r)))
                 (http.Body r).

(** What holds once two adds, of tasks [t1] and [t2], started in world [w]
    on list [list], have both been answered in world [w']: both replies are
    201, the two loads saw different lists, the second one already with the
    item of the first, the file holds both items and the mutex is free. *)
Definition both_added (todoFile : string) (l : Locker) (w : World)
    (list : todo.List) (t1 t2 : string)
    (resp1 resp2 : http.Response) (w' : World) : Prop :=
  resp1 = text_reply http.StatusCreated "" /\
  resp2 = text_reply http.StatusCreated "" /\
  exists ta tb,
    ((ta = t1 /\ tb = t2) \/ (ta = t2 /\ tb = t1)) /\
    loads (events_since w w') =
      [inr list; inr (list ++ [todo.mkItem ta false (clock w)])] /\
    load todoFile w' =
      inr (list ++ [todo.mkItem ta false (clock w);
                    todo.mkItem tb false (S (clock w))]) /\
    is_held l w' = false.

(** The two paths on which [newMux] mounts the router. *)
Definition on_todo_mount (path : string) : Prop :=
  path = "/todo" \/ path = "/todo/".

(** The schedule that lets the first request finish before the second
    starts: eight steps each. *)
Definition one_after_the_other : list bool :=
  repeat true 8 ++ repeat false 8.

(** Two add requests, one on each mount, and a schedule on which the
    second request enters the router first but the first request takes the
    mutex. *)
Definition add_request (path task : string) : http.Request :=
  Sample.request "POST" path ∅
    (json.Value (json.Object [("task", json.Str task)])).

Definition second_enters_first : list bool :=
  false :: repeat true 8 ++ repeat false 7.

Definition after_two_adds : World :=
  match interleave second_enters_first
          (newMux "todo.json" (add_request "/todo" "buy milk"))
          (newMux "todo.json" (add_request "/todo/" "buy eggs"))
          (Sample.world [Sample.eggs]) with
  | Some (_, _, w') => w'
  | None => Sample.world []
  end.

(** ** The router in closed form *)

(** What one request does to the world and what it answers, written
    without the program: the cases of [todoRouter] and of the handlers it
    calls, each with the world it leaves.  [run_todoRouter] shows that
    running the router gives exactly this. *)

(** An error reply: one log line, the standard text of the status. *)
Definition failed (l : Locker) (r : http.Request) (status : Z) (message : Message)
    (w : World) : Outcome http.Response * World :=
  (Returned (http.Error (http.StatusText status) status),
   release l (write_log (mkLogLine (http.Url r) (http.Method r) status message) w)).

(** A JSON reply, or 500 when the envelope cannot be serialized. *)
Definition answered_json (l : Locker) (r : http.Request) (resp : todoResponse)
    (w : World) : Outcome http.Response * World :=
  match encoder w resp with
  | inr body =>
      (Returned (json_reply http.StatusOK body),
       release l (record (EvMarshal resp (inr body)) w))
  | inl err =>
      failed l r http.StatusInternalServerError (MsgText err)
        (record (EvMarshal resp (inl err)) w)
  end.

(** A save followed by an empty reply, or 500 when the save fails. *)
Definition stored (todoFile : string) (l : Locker) (r : http.Request)
    (list : todo.List) (status : Z) (w : World) : Outcome http.Response * World :=
  match write_error w todoFile with
  | None => (Returned (text_reply status ""), release l (saved todoFile list w))
  | Some err =>
      failed l r http.StatusInternalServerError (MsgText err)
        (record (EvSave todoFile list (Some err)) w)
  end.

Definition router_result (todoFile : string) (l : Locker) (r : http.Request)
    (w : World) : Outcome http.Response * World :=
  let w0 := loaded todoFile l w in
  match load todoFile w with
  | inl err => failed l r http.StatusInternalServerError (MsgText err) w0
  | inr list =>
      if String.eqb (http.Path (http.Url r)) ""
      then
        if String.eqb (http.Method r) http.MethodGet
        then answered_json l r (mkTodoResponse list) (record (EvCall FgetAllHandler) w0)
        else if String.eqb (http.Method r) http.MethodPost
        then
          let w1 := record (EvCall FaddHandler) w0 in
          match Decode_item (http.Body r) with
          | (_, Some err) => failed l r http.StatusBadRequest (MsgInvalidJSON err) w1
          | (task, None) =>
              let w2 := record (EvCall FListAdd) w1 in
              stored todoFile l r (todo.Add list task (clock w2))
                     http.StatusCreated (tick w2)
          end
        else failed l r http.StatusMethodNotAllowed (MsgText "Method not supported") w0
      else
        let w1 := record (EvCall FvalidateID) w0 in
        match validateID (http.Path (http.Url r)) list with
        | (_, Some err) =>
            if errors_Is err ErrNoFound
            then failed l r http.StatusNotFound (MsgError err) w1
            else failed l r http.StatusBadRequest (MsgError err) w1
        | (id, None) =>
            if String.eqb (http.Method r) http.MethodGet
            then
              let w2 := record (EvCall FgetOneHandler) w1 in
              match Go.slice list (Go.wrap (id - 1)) id with
              | None => (Panicked, release l w2)
              | Some results => answered_json l r (mkTodoResponse results) w2
              end
            else if String.eqb (http.Method r) http.MethodDelete
            then
              stored todoFile l r (todo.Delete list id) http.StatusNoContent
                     (record (EvCall FListDelete) (record (EvCall FdeleteHandler) w1))
            else if String.eqb (http.Method r) http.MethodPatch
            then
              let w2 := record (EvCall FpathHandler) w1 in
              match http.Query (http.Url r) !! "complete" with
              | None =>
                  failed l r http.StatusBadRequest
                         (MsgText "Missing query param 'complete'") w2
              | Some _ =>
                  stored todoFile l r (todo.Complete list id) http.StatusNoContent
                         (record (EvCall FListComplete) w2)
              end
            else failed l r http.StatusMethodNotAllowed (MsgText "Method not supported") w1
        end
  end.

(** ** Vocabulary of the further properties *)

(** The status codes the router sends. *)
Definition router_statuses : list Z := [200; 201; 204; 400; 404; 405; 500].

(** The mutators of the store adapter. *)
Definition mutator (f : Fn) : bool :=
  match f with FListAdd | FListDelete | FListComplete => true | _ => false end.

(** The status of the reply to an identifier that [validateID] refuses. *)
Definition refusal_status (err : error) : Z :=
  if errors_Is err ErrNoFound then http.StatusNotFound else http.StatusBadRequest.

(** What the router has no operation for: a method other than GET and POST
    on the collection, or a method other than GET, DELETE and PATCH on a
    valid identifier. *)
Definition unsupported (r : http.Request) (list : todo.List) : Prop :=
  (http.Path (http.Url r) = "" /\
   http.Method r <> http.MethodGet /\ http.Method r <> http.MethodPost) \/
  ((exists id, validateID (http.Path (http.Url r)) list = (id, None)) /\
   http.Method r <> http.MethodGet /\ http.Method r <> http.MethodDelete /\
   http.Method r <> http.MethodPatch).

(** The requests that save: an add whose body decodes, a delete of a valid
    identifier, a PATCH of a valid identifier with the [complete] key. *)
Definition saving_request (r : http.Request) (list : todo.List) : Prop :=
  (http.Path (http.Url r) = "" /\ http.Method r = http.MethodPost /\
   snd (Decode_item (http.Body r)) = None) \/
  ((exists id, validateID (http.Path (http.Url r)) list = (id, None)) /\
   (http.Method r = http.MethodDelete \/
    (http.Method r = http.MethodPatch /\
     is_Some (http.Query (http.Url r) !! "complete")))).


(** Worlds in which something is wrong: the mutex is held, the disk is
    full, the encoder fails. *)
Definition busy_world (l : todo.List) : World :=
  mkWorld (fun _ => Stored l) (fun _ => None) (fun _ => inr "{}") [mu] 7%nat [] [].

Definition full_disk_world (l : todo.List) : World :=
  mkWorld (fun _ => Stored l) (fun _ => Some "no space left on device")
          (fun _ => inr "{}") [] 7%nat [] [].


(** ** Decimal numerals *)

Fixpoint all_digits (s : string) : bool :=
  match s with
  | EmptyString => true
  | String c rest => Go.is_digit c && all_digits rest
  end.

(** The value of a string of digits read in base 10, continuing from [n]. *)
Fixpoint decimal (s : string) (n : Z) : Z :=
  match s with
  | EmptyString => n
  | String c rest => decimal rest (n * 10 + Go.digit_val c)
  end.

(** An identifier as [validateID] can accept it: a non-empty string of
    decimal digits, with an optional plus sign in front. *)
Definition numeral_of (path digits : string) : Prop :=
  (path = digits \/ path = String "+" digits) /\
  digits <> "" /\ all_digits digits = true.

(** The content type that goes with a status in the replies of the
    router. *)
Definition content_type_of (status : Z) : string :=
  if status =? 200 then "application/json"
  else if status <? 400 then "text/plain"
  else "text/plain; charset=utf-8".

(** * Properties *)

(** ** strconv.Atoi and validateID *)

(** Boolean comparisons on [Z] in the hypotheses, as propositions. *)
Ltac zbool :=
  repeat match goal with
    | H : (_ && _) = true |- _ => apply andb_true_iff in H as [? ?]
    | H : (_ >? _) = _ |- _ => rewrite Z.gtb_ltb in H
    | H : (_ >=? _) = _ |- _ => rewrite Z.geb_leb in H
    | H : (_ <? _) = true |- _ => apply Z.ltb_lt in H
    | H : (_ <? _) = false |- _ => apply Z.ltb_ge in H
    | H : (_ <=? _) = true |- _ => apply Z.leb_le in H
    | H : (_ <=? _) = false |- _ => apply Z.leb_gt in H
    end.

Section Validation.

Lemma parseDigits_bounds s : forall n r,
  0 <= n <= Go.maxUint64 -> Go.parseDigits s n = inr r -> 0 <= r <= Go.maxUint64.
Proof.
  induction s as [|ch rest IH]; intros n r Hn H; simpl in H.
  - now inversion H; subst.
  - destruct (Go.is_digit ch) eqn:Hd; [|discriminate].
    destruct (n * 10 + Go.digit_val ch >? Go.maxUint64) eqn:Hov; [discriminate|].
    refine (IH _ _ _ H).
    unfold Go.is_digit, Go.digit_val in *. zbool. lia.
Qed.

(** A parsed identifier is a Go [int]. *)
Lemma Atoi_range s i : Go.Atoi s = inr i -> Go.minInt <= i <= Go.maxInt.
Proof.
  unfold Go.Atoi. destruct s as [|c0 rest]; [discriminate|].
  cbv zeta.
  destruct (if (Ascii.eqb c0 "-" || Ascii.eqb c0 "+")%bool then rest else String c0 rest)
    as [|d ds]; [discriminate|].
  destruct (Go.parseDigits (String d ds) 0) as [k|un] eqn:Hp; [discriminate|].
  apply parseDigits_bounds in Hp; [|unfold Go.maxUint64; lia].
  unfold Go.minInt, Go.maxInt.
  destruct (Ascii.eqb c0 "-"); simpl.
  - destruct (un >? 2 ^ 63) eqn:Hc; [discriminate|].
    intros [= <-]. zbool. lia.
  - destruct (un >=? 2 ^ 63) eqn:Hc; [discriminate|].
    intros [= <-]. zbool. lia.
Qed.

Lemma Atoi_empty : exists e, Go.Atoi "" = inl e.
Proof. eexists; reflexivity. Qed.

Lemma validateID_ok_iff path list i :
  validateID path list = (i, None) <->
  Go.Atoi path = inr i /\ 1 <= i <= Go.len list.
Proof.
  unfold validateID. destruct (Go.Atoi path) as [e|id].
  - split; [discriminate | intros [? _]; discriminate].
  - destruct (id <? 1) eqn:H1; [|destruct (id >? Go.len list) eqn:H2].
    + zbool. split; [discriminate|]. intros [[= ->] ?]; lia.
    + zbool. split; [discriminate|]. intros [[= ->] ?]; lia.
    + zbool. split; [intros [= ->] | intros [[= ->] _]]; auto.
Qed.

Lemma validateID_nonempty path list i :
  validateID path list = (i, None) -> String.eqb path "" = false.
Proof.
  intros H. destruct path; [|reflexivity].
  apply validateID_ok_iff in H as [H _]. discriminate.
Qed.

End Validation.

(** ** Facts about the world *)

Section WorldFacts.

Lemma not_held_after_release l hs :
  existsb (Nat.eqb l) (List.filter (fun x => negb (Nat.eqb l x)) hs) = false.
Proof.
  induction hs as [|h hs IH]; [reflexivity|].
  simpl. destruct (Nat.eqb l h) eqn:E; simpl; [exact IH|].
  now rewrite E.
Qed.

Lemma release_others l hs :
  existsb (Nat.eqb l) hs = false ->
  List.filter (fun x => negb (Nat.eqb l x)) hs = hs.
Proof.
  induction hs as [|h hs IH]; [reflexivity|]. simpl.
  intros H. apply orb_false_iff in H as [E H].
  rewrite E. simpl. now rewrite IH.
Qed.

Lemma load_record f e w : load f (record e w) = load f w.
Proof. reflexivity. Qed.

Lemma load_acquire f l w : load f (acquire l w) = load f w.
Proof. reflexivity. Qed.

Lemma load_release f l w : load f (release l w) = load f w.
Proof. reflexivity. Qed.

Lemma load_tick f w : load f (tick w) = load f w.
Proof. reflexivity. Qed.

Lemma load_write_log f line w : load f (write_log line w) = load f w.
Proof. reflexivity. Qed.

Lemma load_saved f x w :
  write_error w f = None -> load f (snd (save f x w)) = inr x.
Proof.
  intros H. unfold save. rewrite H. unfold load. cbn.
  now rewrite String.eqb_refl.
Qed.

Lemma is_held_record l e w : is_held l (record e w) = is_held l w.
Proof. reflexivity. Qed.

Lemma is_held_tick l w : is_held l (tick w) = is_held l w.
Proof. reflexivity. Qed.

Lemma is_held_write_log l line w : is_held l (write_log line w) = is_held l w.
Proof. reflexivity. Qed.

Lemma save_ok f x w :
  write_error w f = None -> save f x w = (None, saved f x w).
Proof. unfold save. now intros ->. Qed.

Lemma is_held_saved l f x w : is_held l (saved f x w) = is_held l w.
Proof. reflexivity. Qed.

Lemma load_saved_same f x w : load f (saved f x w) = inr x.
Proof. unfold load. cbn. now rewrite String.eqb_refl. Qed.

Lemma is_held_save l f x w : is_held l (snd (save f x w)) = is_held l w.
Proof. unfold save. now destruct (write_error w f). Qed.

Lemma clock_record e w : clock (record e w) = clock w.
Proof. reflexivity. Qed.

Lemma clock_acquire l w : clock (acquire l w) = clock w.
Proof. reflexivity. Qed.

Lemma clock_release l w : clock (release l w) = clock w.
Proof. reflexivity. Qed.

Lemma clock_saved f x w : clock (saved f x w) = clock w.
Proof. reflexivity. Qed.

Lemma clock_tick w : clock (tick w) = S (clock w).
Proof. reflexivity. Qed.

Lemma is_held_acquire l w : is_held l (acquire l w) = true.
Proof. unfold is_held. cbn. now rewrite Nat.eqb_refl. Qed.

Lemma is_held_release l w : is_held l (release l w) = false.
Proof. unfold is_held. cbn. apply not_held_after_release. Qed.

Lemma held_release_acquire l w :
  is_held l w = false -> held (release l (acquire l w)) = held w.
Proof.
  intros H. cbn. rewrite Nat.eqb_refl. cbn. now apply release_others.
Qed.

End WorldFacts.


(** ** Observing a run *)

Lemma events_since_app w w' es :
  trace w' = trace w ++ es -> events_since w w' = es.
Proof.
  unfold events_since. intros ->. now rewrite skipn_app, skipn_all, Nat.sub_diag.
Qed.

(** Decide the comparisons of closed strings. *)
Ltac strings :=
  repeat match goal with
    | |- context [String.eqb ?a ?b] =>
        let v := eval vm_compute in (String.eqb a b) in
        match v with
        | true => change (String.eqb a b) with true
        | false => change (String.eqb a b) with false
        end
    end.

(** Run the program as far as it is known; the worlds it goes through
    stay written with the operations that made them. *)
Ltac world :=
  repeat (progress (strings;
                    cbn [run defer bind fst snd];
                    rewrite ?load_record, ?load_acquire, ?load_tick,
                      ?load_write_log, ?is_held_record, ?is_held_tick,
                      ?is_held_write_log, ?is_held_save, ?is_held_saved,
                      ?is_held_acquire)).

(** Project a field out of a world written with the operations that made
    it. *)
Ltac observe :=
  cbn [files write_error encoder held clock logged trace fst snd
       record acquire release tick write_log write_file saved loaded load];
  rewrite <- ?app_assoc; cbn [app].

(** ** Lists and positions *)

Section ListFacts.

Lemma wrap_small z : Go.minInt <= z <= Go.maxInt -> Go.wrap z = z.
Proof.
  unfold Go.wrap, Go.minInt, Go.maxInt, Go.intSize. intros H.
  rewrite Z.mod_small; lia.
Qed.

Lemma at_position_Some (l : todo.List) p :
  1 <= p <= Go.len l -> exists it, at_position l p = Some it.
Proof.
  unfold at_position, Go.len. intros H.
  destruct (1 <=? p) eqn:E; [|zbool; lia].
  apply lookup_lt_is_Some. lia.
Qed.

Lemma slice_one (l : todo.List) id it :
  id <= Go.maxInt ->
  at_position l id = Some it ->
  Go.slice l (Go.wrap (id - 1)) id = Some [it].
Proof.
  unfold at_position. intros Hmax H.
  destruct (1 <=? id) eqn:E; [|discriminate]. zbool.
  rewrite wrap_small by (unfold Go.minInt, Go.maxInt in *; lia).
  pose proof (lookup_lt_Some _ _ _ H) as Hlt.
  unfold Go.slice, Go.len.
  replace ((0 <=? id - 1) && (id - 1 <=? id) && (id <=? Z.of_nat (List.length l)))
    with true.
  2:{ symmetry. rewrite !andb_true_iff, !Z.leb_le. lia. }
  f_equal. replace (Z.to_nat (id - (id - 1))) with 1%nat by lia.
  rewrite (drop_S _ _ _ H). reflexivity.
Qed.

Lemma Delete_spec (l : todo.List) i :
  1 <= i <= Go.len l ->
  Go.len (todo.Delete l i) = Go.len l - 1 /\
  (forall j, 1 <= j < i -> at_position (todo.Delete l i) j = at_position l j) /\
  (forall j, i < j -> at_position (todo.Delete l i) (j - 1) = at_position l j) /\
  (forall it, at_position l i = Some it ->
     l = firstn (Z.to_nat (i - 1)) (todo.Delete l i) ++ it ::
         skipn (Z.to_nat (i - 1)) (todo.Delete l i)).
Proof.
  intros Hi. unfold todo.Delete, Go.len in *.
  replace ((1 <=? i) && (i <=? Z.of_nat (List.length l))) with true
    by (symmetry; rewrite andb_true_iff, !Z.leb_le; lia).
  assert (Hlen : List.length (take (Z.to_nat (i - 1)) l) = Z.to_nat (i - 1)).
  { rewrite length_take. lia. }
  repeat split.
  - rewrite length_app, Hlen, length_drop. lia.
  - intros j Hj. unfold at_position. destruct (1 <=? j); [|reflexivity].
    rewrite lookup_app_l by lia. apply lookup_take_lt. lia.
  - intros j Hj. unfold at_position.
    replace (1 <=? j - 1) with true by (symmetry; apply Z.leb_le; lia).
    replace (1 <=? j) with true by (symmetry; apply Z.leb_le; lia).
    rewrite lookup_app_r by lia. rewrite Hlen, lookup_drop. f_equal. lia.
  - intros it Hit. unfold at_position in Hit.
    replace (1 <=? i) with true in Hit by (symmetry; apply Z.leb_le; lia).
    rewrite take_app_length' by (symmetry; exact Hlen).
    rewrite drop_app_length' by (symmetry; exact Hlen).
    replace (Z.to_nat i) with (S (Z.to_nat (i - 1))) by lia.
    symmetry. apply take_drop_middle. exact Hit.
Qed.

Lemma Complete_spec (l : todo.List) i :
  1 <= i <= Go.len l ->
  Go.len (todo.Complete l i) = Go.len l /\
  at_position (todo.Complete l i) i = todo.complete_item <$> at_position l i /\
  (forall j, j <> i -> at_position (todo.Complete l i) j = at_position l j).
Proof.
  intros Hi. unfold todo.Complete, Go.len in *.
  replace ((1 <=? i) && (i <=? Z.of_nat (List.length l))) with true
    by (symmetry; rewrite andb_true_iff, !Z.leb_le; lia).
  repeat split.
  - now rewrite length_alter.
  - unfold at_position.
    replace (1 <=? i) with true by (symmetry; apply Z.leb_le; lia).
    apply list_lookup_alter_eq.
  - intros j Hj. unfold at_position. destruct (1 <=? j) eqn:E; [|reflexivity].
    zbool. apply list_lookup_alter_ne. lia.
Qed.

Lemma Complete_idempotent (l : todo.List) i :
  todo.Complete (todo.Complete l i) i = todo.Complete l i.
Proof.
  unfold todo.Complete, Go.len.
  destruct ((1 <=? i) && (i <=? Z.of_nat (List.length l))) eqn:E.
  - rewrite length_alter, E.
    rewrite list_alter_alter_eq. apply list_alter_ext; [|reflexivity].
    now intros [t d c].
  - now rewrite E.
Qed.

Lemma Add_spec (l : todo.List) task now :
  Go.len (todo.Add l task now) = Go.len l + 1 /\
  firstn (List.length l) (todo.Add l task now) = l /\
  at_position (todo.Add l task now) (Go.len l + 1) = Some (todo.mkItem task false now) /\
  (forall j, 1 <= j <= Go.len l -> at_position (todo.Add l task now) j = at_position l j).
Proof.
  unfold todo.Add, Go.len, at_position. repeat split.
  - rewrite length_app. simpl. lia.
  - now rewrite take_app_length.
  - replace (1 <=? Z.of_nat (List.length l) + 1) with true
      by (symmetry; apply Z.leb_le; lia).
    replace (Z.to_nat (Z.of_nat (List.length l) + 1 - 1)) with (List.length l + 0)%nat by lia.
    now rewrite lookup_app_r, Nat.add_comm, Nat.add_sub by lia.
  - intros j Hj. destruct (1 <=? j); [|reflexivity].
    apply lookup_app_l. lia.
Qed.

End ListFacts.

(** ** The runs of the router, one lemma per path through it *)

Section RouterRuns.

Variables (todoFile : string) (l : Locker) (r : http.Request) (w : World).
Hypothesis free : is_held l w = false.

Local Abbreviation loaded := (loaded todoFile l w).

(** Enter the router: take the lock and load the file. *)
Ltac enter Hload :=
  unfold todoRouter, replyError, loaded; world; rewrite free; world;
  rewrite Hload; world.

(** The encoder is the one of the initial world. *)
Ltac encoded He :=
  repeat match goal with
    | |- context [encoder ?w0 ?x] =>
        lazymatch w0 with
        | w => fail
        | _ => change (encoder w0 x) with (encoder w x)
        end
    end;
  rewrite He; world.

(** A save that succeeds. *)
Ltac saved Hw := rewrite save_ok by exact Hw; world.

Lemma run_load_fails err :
  load todoFile w = inl err ->
  run (todoRouter todoFile l r) w =
    (Returned (http.Error "Internal Server Error" 500),
     release l
       (write_log (mkLogLine (http.Url r) (http.Method r) 500 (MsgText err))
          loaded)).
Proof using free.
  intros Hload. enter Hload. reflexivity.
Qed.

Lemma run_patch_missing list id :
  load todoFile w = inr list ->
  validateID (http.Path (http.Url r)) list = (id, None) ->
  http.Method r = http.MethodPatch ->
  http.Query (http.Url r) !! "complete" = None ->
  run (todoRouter todoFile l r) w =
    (Returned (http.Error "Bad Request" 400),
     release l
       (write_log (mkLogLine (http.Url r) http.MethodPatch 400
                     (MsgText "Missing query param 'complete'"))
          (record (EvCall FpathHandler) (record (EvCall FvalidateID) loaded)))).
Proof using free.
  intros Hload Hid Hm Hq. enter Hload.
  rewrite (validateID_nonempty _ _ _ Hid), Hid, Hm.
  unfold pathHandler, replyError. cbv zeta. rewrite Hq, Hm. world. reflexivity.
Qed.

Lemma run_patch_ok list id vs :
  load todoFile w = inr list ->
  validateID (http.Path (http.Url r)) list = (id, None) ->
  http.Method r = http.MethodPatch ->
  http.Query (http.Url r) !! "complete" = Some vs ->
  write_error w todoFile = None ->
  run (todoRouter todoFile l r) w =
    (Returned (http.mkResponse (<["Content-Type" := "text/plain"]> ∅) 204 ""),
     release l
       (saved todoFile (todo.Complete list id)
          (record (EvCall FListComplete)
             (record (EvCall FpathHandler) (record (EvCall FvalidateID) loaded))))).
Proof using free.
  intros Hload Hid Hm Hq Hw. enter Hload.
  rewrite (validateID_nonempty _ _ _ Hid), Hid, Hm.
  unfold pathHandler, replyError, replyTextContent. cbv zeta. rewrite Hq.
  world. saved Hw. reflexivity.
Qed.

Lemma run_delete_ok list id :
  load todoFile w = inr list ->
  validateID (http.Path (http.Url r)) list = (id, None) ->
  http.Method r = http.MethodDelete ->
  write_error w todoFile = None ->
  run (todoRouter todoFile l r) w =
    (Returned (http.mkResponse (<["Content-Type" := "text/plain"]> ∅) 204 ""),
     release l
       (saved todoFile (todo.Delete list id)
          (record (EvCall FListDelete)
             (record (EvCall FdeleteHandler) (record (EvCall FvalidateID) loaded))))).
Proof using free.
  intros Hload Hid Hm Hw. enter Hload.
  rewrite (validateID_nonempty _ _ _ Hid), Hid, Hm.
  unfold deleteHandler, replyError, replyTextContent. cbv zeta.
  world. saved Hw. reflexivity.
Qed.

Lemma run_add_ok list task :
  load todoFile w = inr list ->
  http.Path (http.Url r) = "" ->
  http.Method r = http.MethodPost ->
  Decode_item (http.Body r) = (task, None) ->
  write_error w todoFile = None ->
  run (todoRouter todoFile l r) w =
    (Returned (http.mkResponse (<["Content-Type" := "text/plain"]> ∅) 201 ""),
     release l
       (saved todoFile (todo.Add list task (clock w))
          (tick (record (EvCall FListAdd)
             (record (EvCall FaddHandler) loaded))))).
Proof using free.
  intros Hload Hp Hm Hd Hw. enter Hload. rewrite Hp, Hm.
  unfold addHandler, replyError, replyTextContent. cbv zeta. rewrite Hd.
  world. saved Hw. reflexivity.
Qed.

Lemma run_get_all list body :
  load todoFile w = inr list ->
  http.Path (http.Url r) = "" ->
  http.Method r = http.MethodGet ->
  encoder w (mkTodoResponse list) = inr body ->
  run (todoRouter todoFile l r) w =
    (Returned (http.mkResponse (<["Content-Type" := "application/json"]> ∅) 200 body),
     release l
       (record (EvMarshal (mkTodoResponse list) (inr body))
          (record (EvCall FgetAllHandler) loaded))).
Proof using free.
  intros Hload Hp Hm He. enter Hload. rewrite Hp, Hm.
  unfold getAllHandler, replyJSONContent, replyError. cbv zeta.
  world. encoded He. reflexivity.
Qed.

Lemma run_get_one list id results body :
  load todoFile w = inr list ->
  validateID (http.Path (http.Url r)) list = (id, None) ->
  http.Method r = http.MethodGet ->
  Go.slice list (Go.wrap (id - 1)) id = Some results ->
  encoder w (mkTodoResponse results) = inr body ->
  run (todoRouter todoFile l r) w =
    (Returned (http.mkResponse (<["Content-Type" := "application/json"]> ∅) 200 body),
     release l
       (record (EvMarshal (mkTodoResponse results) (inr body))
          (record (EvCall FgetOneHandler) (record (EvCall FvalidateID) loaded)))).
Proof using free.
  intros Hload Hid Hm Hs He. enter Hload.
  rewrite (validateID_nonempty _ _ _ Hid), Hid, Hm.
  unfold getOneHandler, replyJSONContent, replyError. cbv zeta. rewrite Hs.
  world. encoded He. reflexivity.
Qed.

End RouterRuns.

(** ** Decoding and validation across requests *)

Section Requests.

Lemma validateID_len path (l1 l2 : todo.List) :
  Go.len l1 = Go.len l2 -> validateID path l1 = validateID path l2.
Proof. unfold validateID. now intros ->. Qed.

Lemma Complete_len (l : todo.List) i : Go.len (todo.Complete l i) = Go.len l.
Proof.
  unfold todo.Complete, Go.len.
  destruct (_ && _); [now rewrite length_alter | reflexivity].
Qed.

Lemma Complete_done (l : todo.List) i it :
  at_position l i = Some it -> todo.Done it = true -> todo.Complete l i = l.
Proof.
  unfold todo.Complete, at_position. intros Hit Hd.
  destruct (1 <=? i) eqn:E1; [|discriminate]. cbn [andb].
  destruct (i <=? Go.len l); [|reflexivity].
  rewrite <- (list_alter_id id l (Z.to_nat (i - 1))) at 2 by reflexivity.
  apply list_alter_ext; [|reflexivity].
  intros x Hx. rewrite Hit in Hx. injection Hx as <-.
  destruct it as [t d c]. cbn in Hd. now subst d.
Qed.

Lemma Decode_members_no_task members acc :
  (forall m, In m members -> json.selects "task" (fst m) = false) ->
  fold_left
    (fun (acc : string * option json.DecodeError) (m : string * json.value) =>
       if json.selects "task" (fst m)
       then json.decode_string "task" (snd m) (fst acc) (snd acc)
       else acc)
    members acc = acc.
Proof.
  revert acc. induction members as [|m members IH]; intros acc H; [reflexivity|].
  cbn [fold_left]. rewrite (H m) by now left.
  apply IH. intros m' Hm'. apply H. now right.
Qed.

Lemma Decode_item_no_task members :
  (forall m, In m members -> json.selects "task" (fst m) = false) ->
  Decode_item (json.Value (json.Object members)) = ("", None).
Proof. intros H. unfold Decode_item. now apply Decode_members_no_task. Qed.

Lemma Decode_item_task task :
  Decode_item (json.Value (json.Object [("task", json.Str task)])) = (task, None).
Proof. reflexivity. Qed.

End Requests.

(** * The properties of the specification *)

(** C1: for every list and every path segment, [validateID] succeeds and
    returns the parsed integer [i] exactly when the segment parses as a
    base-10 integer with [1 <= i <= len(list)]; when the segment is not a
    valid integer, or the integer is less than 1, it fails with an error
    that wraps [ErrInvalidData] (and not [ErrNoFound]); when the integer
    exceeds the length of the list it fails with an error that wraps
    [ErrNoFound]. *)
Theorem validateID_spec (path : string) (list : todo.List) :
  (forall i, validateID path list = (i, None) <->
             Go.Atoi path = inr i /\ 1 <= i <= Go.len list) /\
  (forall e, Go.Atoi path = inl e ->
     exists err, validateID path list = (0, Some err) /\
                 errors_Is err ErrInvalidData = true /\
                 errors_Is err ErrNoFound = false) /\
  (forall i, Go.Atoi path = inr i -> i < 1 ->
     exists err, validateID path list = (0, Some err) /\
                 errors_Is err ErrInvalidData = true /\
                 errors_Is err ErrNoFound = false) /\
  (forall i, Go.Atoi path = inr i -> i > Go.len list ->
     exists err, validateID path list = (i, Some err) /\
                 errors_Is err ErrNoFound = true /\
                 errors_Is err ErrInvalidData = false).
Proof.
  split; [intros i; apply validateID_ok_iff|].
  unfold validateID. repeat split.
  - intros e ->. eexists; repeat split.
  - intros i -> Hi. apply Z.ltb_lt in Hi. rewrite Hi.
    eexists; repeat split.
  - intros i -> Hi.
    assert (H1 : (i <? 1) = false) by (apply Z.ltb_ge; unfold Go.len in Hi; lia).
    assert (H2 : (i >? Go.len list) = true) by (rewrite Z.gtb_ltb; apply Z.ltb_lt; lia).
    rewrite H1, H2. eexists; repeat split.
Qed.

(** C8: when the initial load of the list fails, the router replies 500 and
    returns before any dispatch: apart from taking and releasing the lock,
    the failed load and the log line nothing happens, so no handler and no
    validation runs and the file is not written. *)
Theorem load_failure_short_circuits
    (todoFile : string) (l : Locker) (r : http.Request) (w : World) (err : string) :
  is_held l w = false ->
  load todoFile w = inl err ->
  let out := run (todoRouter todoFile l r) w in
  fst out = Returned (http.Error "Internal Server Error" http.StatusInternalServerError) /\
  events_since w (snd out) =
    [ EvCall FtodoRouter; EvLock l; EvGet todoFile (inl err);
      EvLog (mkLogLine (http.Url r) (http.Method r)
                       http.StatusInternalServerError (MsgText err));
      EvUnlock l ] /\
  existsb (is_call_of dispatched) (events_since w (snd out)) = false /\
  existsb is_save (events_since w (snd out)) = false /\
  files (snd out) = files w.
Proof.
  intros Hfree Hload out. subst out.
  rewrite (run_load_fails _ _ _ _ Hfree _ Hload). cbn [fst snd].
  erewrite events_since_app by (observe; rewrite Hload; reflexivity).
  repeat split.
Qed.

(** ** The root handler *)

(** C2, as stated, fails: a POST on the exact root path is answered with
    200 and the fixed text, not with 404, because [rootHandler] never looks
    at the method. *)
Lemma rootHandler_answers_POST :
  let r := Sample.request "POST" "/" ∅ Sample.no_body in
  http.Method r <> http.MethodGet /\
  fst (run (rootHandler r) (Sample.world [])) =
    Returned (text_reply 200 "There's an API here") /\
  ~ (forall (r : http.Request) (w : World) (resp : http.Response),
       fst (run (rootHandler r) w) = Returned resp ->
       (http.Status resp = 200 <->
        http.Method r = http.MethodGet /\ http.Path (http.Url r) = "/")).
Proof.
  cbv zeta. split; [discriminate|]. split; [reflexivity|].
  intros H.
  specialize (H (Sample.request "POST" "/" ∅ Sample.no_body) (Sample.world [])
                (text_reply 200 "There's an API here") eq_refl).
  destruct H as [H _]. destruct (H eq_refl) as [Hm _]. discriminate.
Qed.

(** C2, amended: the root handler replies 200 with the fixed text body
    exactly when the path is exactly the root path, whatever the method; for
    any other path it replies 404 with the standard text of that status. *)
Theorem rootHandler_spec (r : http.Request) (w : World) :
  (http.Path (http.Url r) = "/" ->
   fst (run (rootHandler r) w) = Returned (text_reply 200 "There's an API here")) /\
  (http.Path (http.Url r) <> "/" ->
   fst (run (rootHandler r) w) = Returned (http.Error "Not Found" 404)) /\
  (forall resp, fst (run (rootHandler r) w) = Returned resp ->
     (http.Status resp = 200 <-> http.Path (http.Url r) = "/")).
Proof.
  unfold rootHandler, replyError, replyTextContent.
  destruct (String.eqb_spec (http.Path (http.Url r)) "/") as [E|E];
    cbn [negb run fst]; (split; [|split]).
  - reflexivity.
  - congruence.
  - intros resp [= <-]. split; [auto | reflexivity].
  - congruence.
  - reflexivity.
  - intros resp [= <-]. split; [discriminate | congruence].
Qed.

(** ** Requests on the todo mount *)

(** C3: a PATCH request with a valid identifier and no [complete] query
    parameter is answered with 400, and neither [List.Complete] nor
    [List.Save] is called: the file system is the same before and after. *)
Theorem patch_without_complete_rejected
    (todoFile : string) (l : Locker) (r : http.Request) (w : World)
    (list : todo.List) (id : Z) :
  is_held l w = false ->
  load todoFile w = inr list ->
  validateID (http.Path (http.Url r)) list = (id, None) ->
  http.Method r = http.MethodPatch ->
  http.Query (http.Url r) !! "complete" = None ->
  let out := run (todoRouter todoFile l r) w in
  fst out = Returned (http.Error "Bad Request" http.StatusBadRequest) /\
  http.Status (http.Error "Bad Request" http.StatusBadRequest) = 400 /\
  existsb is_save (events_since w (snd out)) = false /\
  existsb (is_call_of is_ListComplete) (events_since w (snd out)) = false /\
  files (snd out) = files w.
Proof.
  intros Hfree Hload Hid Hm Hq out. subst out.
  rewrite (run_patch_missing _ _ _ _ Hfree _ _ Hload Hid Hm Hq). cbn [fst snd].
  erewrite events_since_app by (observe; rewrite Hload; reflexivity).
  repeat split.
Qed.

Lemma patch_without_complete_witness :
  let w := Sample.world [Sample.milk] in
  let r := Sample.request "PATCH" "1" ∅ Sample.no_body in
  let out := run (todoRouter "todo.json" mu r) w in
  fst out = Returned (http.Error "Bad Request" http.StatusBadRequest) /\
  http.Status (http.Error "Bad Request" http.StatusBadRequest) = 400 /\
  existsb is_save (events_since w (snd out)) = false /\
  existsb (is_call_of is_ListComplete) (events_since w (snd out)) = false /\
  files (snd out) = files w.
Proof.
  apply (patch_without_complete_rejected "todo.json" mu
           (Sample.request "PATCH" "1" ∅ Sample.no_body)
           (Sample.world [Sample.milk]) [Sample.milk] 1);
    vm_compute; reflexivity.
Defined.

(** C4: for an identifier accepted by [validateID], the slice expression
    of the get-one handler is within bounds and holds exactly one element,
    the item at that position; the handler cannot panic and returns a
    reply. *)
Theorem getOne_slice_in_bounds
    (path : string) (list : todo.List) (id : Z) :
  validateID path list = (id, None) ->
  exists it,
    at_position list id = Some it /\
    Go.slice list (Go.wrap (id - 1)) id = Some [it] /\
    forall (r : http.Request) (w : World),
      fst (run (getOneHandler r list id) w) <> Panicked /\
      run (getOneHandler r list id) w =
        run (replyJSONContent r http.StatusOK (mkTodoResponse [it]))
            (record (EvCall FgetOneHandler) w).
Proof.
  intros Hid. apply validateID_ok_iff in Hid as [Hparse Hrange].
  destruct (at_position_Some list id Hrange) as [it Hit].
  assert (Hs : Go.slice list (Go.wrap (id - 1)) id = Some [it]).
  { apply slice_one; [|exact Hit]. apply Atoi_range in Hparse. lia. }
  exists it. split; [exact Hit|]. split; [exact Hs|].
  intros r w. unfold getOneHandler. rewrite Hs. cbv zeta. cbn [run].
  split; [|reflexivity].
  unfold replyJSONContent, replyError. cbn [run].
  destruct (encoder _ _); cbn [run fst]; discriminate.
Qed.

Lemma getOne_slice_witness :
  exists it,
    at_position [Sample.milk; Sample.eggs] 2 = Some it /\
    Go.slice [Sample.milk; Sample.eggs] (Go.wrap (2 - 1)) 2 = Some [it] /\
    forall (r : http.Request) (w : World),
      fst (run (getOneHandler r [Sample.milk; Sample.eggs] 2) w) <> Panicked /\
      run (getOneHandler r [Sample.milk; Sample.eggs] 2) w =
        run (replyJSONContent r http.StatusOK (mkTodoResponse [it]))
            (record (EvCall FgetOneHandler) w).
Proof.
  apply (getOne_slice_in_bounds "2" [Sample.milk; Sample.eggs] 2).
  vm_compute; reflexivity.
Defined.


(** C5: a successful delete of a valid identifier replies 204 with an
    empty body, and the list-all that follows serializes a list that is one
    shorter, in which the positions before the identifier are unchanged and
    every later item has moved down by one: the old list is the new one
    with the deleted item put back at its position. *)
Theorem delete_then_list_all
    (todoFile : string) (l : Locker) (rd rg : http.Request) (w : World)
    (list : todo.List) (id : Z) (body : string) :
  is_held l w = false ->
  load todoFile w = inr list ->
  write_error w todoFile = None ->
  validateID (http.Path (http.Url rd)) list = (id, None) ->
  http.Method rd = http.MethodDelete ->
  http.Path (http.Url rg) = "" ->
  http.Method rg = http.MethodGet ->
  encoder w (mkTodoResponse (todo.Delete list id)) = inr body ->
  let out1 := run (todoRouter todoFile l rd) w in
  let out2 := run (todoRouter todoFile l rg) (snd out1) in
  let list' := todo.Delete list id in
  fst out1 = Returned (text_reply http.StatusNoContent "") /\
  load todoFile (snd out1) = inr list' /\
  fst out2 = Returned (json_reply http.StatusOK body) /\
  In (EvMarshal (mkTodoResponse list') (inr body))
     (events_since (snd out1) (snd out2)) /\
  Go.len list' = Go.len list - 1 /\
  (forall j, 1 <= j < id -> at_position list' j = at_position list j) /\
  (forall j, id < j -> at_position list' (j - 1) = at_position list j) /\
  (forall it, at_position list id = Some it ->
     list = firstn (Z.to_nat (id - 1)) list' ++ it ::
            skipn (Z.to_nat (id - 1)) list').
Proof.
  intros Hfree Hload Hw Hid Hm Hp Hg He out1 out2 list'.
  subst out1 out2 list'.
  rewrite (run_delete_ok _ _ _ _ Hfree _ _ Hload Hid Hm Hw). cbn [fst snd].
  set (w1 := release l _).
  assert (Hfree1 : is_held l w1 = false) by apply is_held_release.
  assert (Hload1 : load todoFile w1 = inr (todo.Delete list id)).
  { subst w1. rewrite load_release. apply load_saved_same. }
  rewrite (run_get_all _ _ _ _ Hfree1 _ body Hload1 Hp Hg He). cbn [fst snd].
  split; [reflexivity|]. split; [exact Hload1|]. split; [reflexivity|].
  split.
  { erewrite events_since_app by (observe; rewrite Hload1; reflexivity).
    cbn [In]. tauto. }
  apply Delete_spec. now apply validateID_ok_iff in Hid.
Qed.

Lemma delete_then_list_all_witness :
  let w := Sample.world [Sample.milk; Sample.eggs] in
  let rd := Sample.request "DELETE" "1" ∅ Sample.no_body in
  let rg := Sample.request "GET" "" ∅ Sample.no_body in
  let out1 := run (todoRouter "todo.json" mu rd) w in
  let out2 := run (todoRouter "todo.json" mu rg) (snd out1) in
  let list := [Sample.milk; Sample.eggs] in
  let list' := todo.Delete list 1 in
  fst out1 = Returned (text_reply http.StatusNoContent "") /\
  load "todo.json" (snd out1) = inr list' /\
  fst out2 = Returned (json_reply http.StatusOK "{}") /\
  In (EvMarshal (mkTodoResponse list') (inr "{}"))
     (events_since (snd out1) (snd out2)) /\
  Go.len list' = Go.len list - 1 /\
  (forall j, 1 <= j < 1 -> at_position list' j = at_position list j) /\
  (forall j, 1 < j -> at_position list' (j - 1) = at_position list j) /\
  (forall it, at_position list 1 = Some it ->
     list = firstn (Z.to_nat (1 - 1)) list' ++ it ::
            skipn (Z.to_nat (1 - 1)) list').
Proof.
  apply (delete_then_list_all "todo.json" mu
           (Sample.request "DELETE" "1" ∅ Sample.no_body)
           (Sample.request "GET" "" ∅ Sample.no_body)
           (Sample.world [Sample.milk; Sample.eggs])
           [Sample.milk; Sample.eggs] 1 "{}");
    vm_compute; reflexivity.
Defined.

(** C6: a successful add replies 201 with an empty body, and the list-all
    that follows serializes a list that is one longer, whose first
    [len(list)] elements are the old list and whose last element has the
    given task text and is not done. *)
Theorem add_then_list_all
    (todoFile : string) (l : Locker) (ra rg : http.Request) (w : World)
    (list : todo.List) (task : string) (body : string) :
  is_held l w = false ->
  load todoFile w = inr list ->
  write_error w todoFile = None ->
  http.Path (http.Url ra) = "" ->
  http.Method ra = http.MethodPost ->
  Decode_item (http.Body ra) = (task, None) ->
  http.Path (http.Url rg) = "" ->
  http.Method rg = http.MethodGet ->
  encoder w (mkTodoResponse (todo.Add list task (clock w))) = inr body ->
  let out1 := run (todoRouter todoFile l ra) w in
  let out2 := run (todoRouter todoFile l rg) (snd out1) in
  let list' := todo.Add list task (clock w) in
  fst out1 = Returned (text_reply http.StatusCreated "") /\
  load todoFile (snd out1) = inr list' /\
  fst out2 = Returned (json_reply http.StatusOK body) /\
  In (EvMarshal (mkTodoResponse list') (inr body))
     (events_since (snd out1) (snd out2)) /\
  Go.len list' = Go.len list + 1 /\
  firstn (List.length list) list' = list /\
  at_position list' (Go.len list + 1) = Some (todo.mkItem task false (clock w)) /\
  (forall j, 1 <= j <= Go.len list -> at_position list' j = at_position list j).
Proof.
  intros Hfree Hload Hw Hp Hm Hd Hpg Hg He out1 out2 list'.
  subst out1 out2 list'.
  rewrite (run_add_ok _ _ _ _ Hfree _ _ Hload Hp Hm Hd Hw). cbn [fst snd].
  set (w1 := release l _).
  assert (Hfree1 : is_held l w1 = false) by apply is_held_release.
  assert (Hload1 : load todoFile w1 = inr (todo.Add list task (clock w))).
  { subst w1. rewrite load_release. apply load_saved_same. }
  rewrite (run_get_all _ _ _ _ Hfree1 _ body Hload1 Hpg Hg He). cbn [fst snd].
  split; [reflexivity|]. split; [exact Hload1|]. split; [reflexivity|].
  split.
  { erewrite events_since_app by (observe; rewrite Hload1; reflexivity).
    cbn [In]. tauto. }
  apply Add_spec.
Qed.

Lemma add_then_list_all_witness :
  let w := Sample.world [Sample.eggs] in
  let ra := Sample.request "POST" "" ∅
              (json.Value (json.Object [("task", json.Str "buy milk")])) in
  let rg := Sample.request "GET" "" ∅ Sample.no_body in
  let out1 := run (todoRouter "todo.json" mu ra) w in
  let out2 := run (todoRouter "todo.json" mu rg) (snd out1) in
  let list := [Sample.eggs] in
  let list' := todo.Add list "buy milk" 7%nat in
  fst out1 = Returned (text_reply http.StatusCreated "") /\
  load "todo.json" (snd out1) = inr list' /\
  fst out2 = Returned (json_reply http.StatusOK "{}") /\
  In (EvMarshal (mkTodoResponse list') (inr "{}"))
     (events_since (snd out1) (snd out2)) /\
  Go.len list' = Go.len list + 1 /\
  firstn (List.length list) list' = list /\
  at_position list' (Go.len list + 1) = Some (todo.mkItem "buy milk" false 7%nat) /\
  (forall j, 1 <= j <= Go.len list -> at_position list' j = at_position list j).
Proof.
  apply (add_then_list_all "todo.json" mu
           (Sample.request "POST" "" ∅
              (json.Value (json.Object [("task", json.Str "buy milk")])))
           (Sample.request "GET" "" ∅ Sample.no_body)
           (Sample.world [Sample.eggs]) [Sample.eggs] "buy milk" "{}");
    vm_compute; reflexivity.
Defined.

(** C7: marking a valid identifier complete twice in a row succeeds both
    times with 204, and the second request leaves the file as the first one
    left it, with the item done; on a list whose item is already done the
    operation changes nothing. *)
Theorem complete_is_idempotent
    (todoFile : string) (l : Locker) (r : http.Request) (w : World)
    (list : todo.List) (id : Z) (vs : Datatypes.list string) :
  is_held l w = false ->
  load todoFile w = inr list ->
  write_error w todoFile = None ->
  validateID (http.Path (http.Url r)) list = (id, None) ->
  http.Method r = http.MethodPatch ->
  http.Query (http.Url r) !! "complete" = Some vs ->
  let out1 := run (todoRouter todoFile l r) w in
  let out2 := run (todoRouter todoFile l r) (snd out1) in
  fst out1 = Returned (text_reply http.StatusNoContent "") /\
  fst out2 = Returned (text_reply http.StatusNoContent "") /\
  load todoFile (snd out1) = inr (todo.Complete list id) /\
  load todoFile (snd out2) = inr (todo.Complete list id) /\
  todo.Complete (todo.Complete list id) id = todo.Complete list id /\
  todo.Done <$> at_position (todo.Complete list id) id = Some true /\
  (forall it, at_position list id = Some it -> todo.Done it = true ->
     todo.Complete list id = list).
Proof.
  intros Hfree Hload Hw Hid Hm Hq out1 out2. subst out1 out2.
  rewrite (run_patch_ok _ _ _ _ Hfree _ _ _ Hload Hid Hm Hq Hw). cbn [fst snd].
  set (w1 := release l _).
  assert (Hfree1 : is_held l w1 = false) by apply is_held_release.
  assert (Hload1 : load todoFile w1 = inr (todo.Complete list id)).
  { subst w1. rewrite load_release. apply load_saved_same. }
  assert (Hid1 : validateID (http.Path (http.Url r)) (todo.Complete list id) = (id, None)).
  { rewrite <- Hid. apply validateID_len, Complete_len. }
  assert (Hw1 : write_error w1 todoFile = None) by exact Hw.
  rewrite (run_patch_ok _ _ _ _ Hfree1 _ _ _ Hload1 Hid1 Hm Hq Hw1). cbn [fst snd].
  split; [reflexivity|]. split; [reflexivity|]. split; [exact Hload1|].
  split. { rewrite load_release, Complete_idempotent. apply load_saved_same. }
  split; [apply Complete_idempotent|].
  split.
  { apply validateID_ok_iff in Hid as [_ Hrange].
    destruct (Complete_spec list id Hrange) as (_ & -> & _).
    destruct (at_position_Some list id Hrange) as [it ->]. reflexivity. }
  intros it. apply Complete_done.
Qed.

Lemma complete_is_idempotent_witness :
  let w := Sample.world [Sample.milk; Sample.eggs] in
  let r := Sample.request "PATCH" "1" {[ "complete" := [""] ]} Sample.no_body in
  let list := [Sample.milk; Sample.eggs] in
  let out1 := run (todoRouter "todo.json" mu r) w in
  let out2 := run (todoRouter "todo.json" mu r) (snd out1) in
  fst out1 = Returned (text_reply http.StatusNoContent "") /\
  fst out2 = Returned (text_reply http.StatusNoContent "") /\
  load "todo.json" (snd out1) = inr (todo.Complete list 1) /\
  load "todo.json" (snd out2) = inr (todo.Complete list 1) /\
  todo.Complete (todo.Complete list 1) 1 = todo.Complete list 1 /\
  todo.Done <$> at_position (todo.Complete list 1) 1 = Some true /\
  (forall it, at_position list 1 = Some it -> todo.Done it = true ->
     todo.Complete list 1 = list).
Proof.
  apply (complete_is_idempotent "todo.json" mu
           (Sample.request "PATCH" "1" {[ "complete" := [""] ]} Sample.no_body)
           (Sample.world [Sample.milk; Sample.eggs])
           [Sample.milk; Sample.eggs] 1 [""]);
    vm_compute; reflexivity.
Defined.

(** C9: a POST to the collection whose body is a JSON object without a
    member for the [task] field (such as the empty object, or an object with
    only other members) is not rejected: the task decodes as the empty
    string, a new incomplete item with empty text is appended and saved, and
    the reply is 201.  A member is one for the field when its name is
    [task] exactly or up to case, as the decoder matches names. *)
Theorem add_without_task_field
    (todoFile : string) (l : Locker) (r : http.Request) (w : World)
    (list : todo.List) (members : Datatypes.list (string * json.value)) :
  is_held l w = false ->
  load todoFile w = inr list ->
  write_error w todoFile = None ->
  http.Path (http.Url r) = "" ->
  http.Method r = http.MethodPost ->
  http.Body r = json.Value (json.Object members) ->
  (forall m, In m members -> json.selects "task" (fst m) = false) ->
  let out := run (todoRouter todoFile l r) w in
  Decode_item (http.Body r) = ("", None) /\
  fst out = Returned (text_reply http.StatusCreated "") /\
  http.Status (text_reply http.StatusCreated "") = 201 /\
  load todoFile (snd out) = inr (list ++ [todo.mkItem "" false (clock w)]) /\
  In (EvSave todoFile (list ++ [todo.mkItem "" false (clock w)]) None)
     (events_since w (snd out)).
Proof.
  intros Hfree Hload Hw Hp Hm Hb Hno out. subst out.
  assert (Hd : Decode_item (http.Body r) = ("", None)).
  { rewrite Hb. now apply Decode_item_no_task. }
  rewrite (run_add_ok _ _ _ _ Hfree _ _ Hload Hp Hm Hd Hw). cbn [fst snd].
  split; [exact Hd|]. split; [reflexivity|]. split; [reflexivity|].
  split. { rewrite load_release. apply load_saved_same. }
  erewrite events_since_app by (observe; rewrite Hload; reflexivity).
  cbn [In]. unfold todo.Add. tauto.
Qed.

Lemma add_without_task_field_witness :
  let w := Sample.world [Sample.milk] in
  let r := Sample.request "POST" "" ∅
             (json.Value (json.Object [("other", json.Number "1")])) in
  let out := run (todoRouter "todo.json" mu r) w in
  Decode_item (http.Body r) = ("", None) /\
  fst out = Returned (text_reply http.StatusCreated "") /\
  http.Status (text_reply http.StatusCreated "") = 201 /\
  load "todo.json" (snd out) = inr ([Sample.milk] ++ [todo.mkItem "" false (clock w)]) /\
  In (EvSave "todo.json" ([Sample.milk] ++ [todo.mkItem "" false (clock w)]) None)
     (events_since w (snd out)).
Proof.
  apply (add_without_task_field "todo.json" mu
           (Sample.request "POST" "" ∅
              (json.Value (json.Object [("other", json.Number "1")])))
           (Sample.world [Sample.milk]) [Sample.milk]
           [("other", json.Number "1")]); try (vm_compute; reflexivity).
  intros m [<-|[]]. vm_compute; reflexivity.
Defined.

(** The empty object decodes to the empty task. *)
Example Decode_item_empty_object :
  Decode_item (json.Value (json.Object [])) = ("", None).
Proof. reflexivity. Qed.

(** A member whose name differs from [task] only by case is a member for
    the field: with a value that is not a string the decode fails. *)
Example Decode_item_folded_name :
  Decode_item (json.Value (json.Object [("TASK", json.Number "1")])) =
    ("", Some (json.UnmarshalTypeError "number" "task")).
Proof. reflexivity. Qed.

Lemma load_failure_witness :
  let w := mkWorld (fun _ => Unreadable "unexpected end of JSON input")
                   (fun _ => None) (fun _ => inr "{}") [] 0%nat [] [] in
  let r := Sample.request "DELETE" "1" ∅ Sample.no_body in
  let out := run (todoRouter "todo.json" mu r) w in
  fst out = Returned (http.Error "Internal Server Error" http.StatusInternalServerError) /\
  events_since w (snd out) =
    [ EvCall FtodoRouter; EvLock mu;
      EvGet "todo.json" (inl "unexpected end of JSON input");
      EvLog (mkLogLine (http.Url r) (http.Method r)
                       http.StatusInternalServerError
                       (MsgText "unexpected end of JSON input"));
      EvUnlock mu ] /\
  existsb (is_call_of dispatched) (events_since w (snd out)) = false /\
  existsb is_save (events_since w (snd out)) = false /\
  files (snd out) = files w.
Proof.
  apply (load_failure_short_circuits "todo.json" mu
           (Sample.request "DELETE" "1" ∅ Sample.no_body)
           (mkWorld (fun _ => Unreadable "unexpected end of JSON input")
                    (fun _ => None) (fun _ => inr "{}") [] 0%nat [] [])
           "unexpected end of JSON input");
    vm_compute; reflexivity.
Defined.

(** * Further properties of the code *)

(** ** Steps of a program and of a pair of programs *)

Section Steps.

Context {A : Type}.
Implicit Types (p k : Prog A) (w : World).

Lemma step1_Call f k w : step1 (Call f k) w = Some (k, record (EvCall f) w).
Proof. reflexivity. Qed.

Lemma step1_Lock_free l k w :
  is_held l w = false -> step1 (Lock l k) w = Some (k, acquire l w).
Proof. intros H. cbn. now rewrite H. Qed.

Lemma step1_Lock_held l k w :
  is_held l w = true -> step1 (Lock l k) w = None.
Proof. intros H. cbn. now rewrite H. Qed.

Lemma step1_Unlock_held l k w :
  is_held l w = true -> step1 (Unlock l k) w = Some (k, release l w).
Proof. intros H. cbn. now rewrite H. Qed.

Lemma step1_Get file (k : string + todo.List -> Prog A) w r :
  load file w = r ->
  step1 (ListGet file k) w = Some (k r, record (EvGet file r) w).
Proof. now intros <-. Qed.

Lemma step1_Save_ok file x (k : option string -> Prog A) w :
  write_error w file = None ->
  step1 (ListSave file x k) w = Some (k None, saved file x w).
Proof. intros H. cbn. now rewrite (save_ok _ _ _ H). Qed.

Lemma step1_Now (k : Time -> Prog A) w t :
  clock w = t -> step1 (TimeNow k) w = Some (k t, tick w).
Proof. now intros <-. Qed.

Lemma interleave_left s p1 p1' p2 w w1 :
  step1 p1 w = Some (p1', w1) ->
  interleave (true :: s) p1 p2 w = interleave s p1' p2 w1.
Proof. intros H. cbn. now rewrite H. Qed.

Lemma interleave_left_stuck s p1 p2 w :
  step1 p1 w = None -> interleave (true :: s) p1 p2 w = None.
Proof. intros H. cbn. now rewrite H. Qed.

Lemma interleave_right s p1 p2 p2' w w1 :
  step1 p2 w = Some (p2', w1) ->
  interleave (false :: s) p1 p2 w = interleave s p1 p2' w1.
Proof. intros H. cbn. now rewrite H. Qed.

Lemma interleave_right_stuck s p1 p2 w :
  step1 p2 w = None -> interleave (false :: s) p1 p2 w = None.
Proof. intros H. cbn. now rewrite H. Qed.

End Steps.

Section MoreWorldFacts.

Lemma write_error_record e w f : write_error (record e w) f = write_error w f.
Proof. reflexivity. Qed.

Lemma write_error_acquire l w f : write_error (acquire l w) f = write_error w f.
Proof. reflexivity. Qed.

Lemma write_error_release l w f : write_error (release l w) f = write_error w f.
Proof. reflexivity. Qed.

Lemma write_error_tick w f : write_error (tick w) f = write_error w f.
Proof. reflexivity. Qed.

Lemma write_error_saved g x w f : write_error (saved g x w) f = write_error w f.
Proof. reflexivity. Qed.

Lemma write_error_write_log e w f : write_error (write_log e w) f = write_error w f.
Proof. reflexivity. Qed.

Lemma clock_write_log e w : clock (write_log e w) = clock w.
Proof. reflexivity. Qed.

End MoreWorldFacts.

(** A question asked of a world that is written with the operations that
    made it, answered by going back through them one at a time; the
    operations are matched as written, never unfolded. *)
Ltac ask :=
  repeat match goal with
    | |- context [is_held ?a (record ?e ?x)] => rewrite (is_held_record a e x)
    | |- context [is_held ?a (tick ?x)] => rewrite (is_held_tick a x)
    | |- context [is_held ?a (write_log ?e ?x)] => rewrite (is_held_write_log a e x)
    | |- context [is_held ?a (saved ?f ?y ?x)] => rewrite (is_held_saved a f y x)
    | |- context [is_held ?a (acquire ?a ?x)] => rewrite (is_held_acquire a x)
    | |- context [is_held ?a (release ?a ?x)] => rewrite (is_held_release a x)
    | |- context [load ?f (record ?e ?x)] => rewrite (load_record f e x)
    | |- context [load ?f (acquire ?a ?x)] => rewrite (load_acquire f a x)
    | |- context [load ?f (release ?a ?x)] => rewrite (load_release f a x)
    | |- context [load ?f (tick ?x)] => rewrite (load_tick f x)
    | |- context [load ?f (write_log ?e ?x)] => rewrite (load_write_log f e x)
    | |- context [load ?f (saved ?f ?y ?x)] => rewrite (load_saved_same f y x)
    | |- context [clock (record ?e ?x)] => rewrite (clock_record e x)
    | |- context [clock (acquire ?a ?x)] => rewrite (clock_acquire a x)
    | |- context [clock (release ?a ?x)] => rewrite (clock_release a x)
    | |- context [clock (saved ?f ?y ?x)] => rewrite (clock_saved f y x)
    | |- context [clock (tick ?x)] => rewrite (clock_tick x)
    | |- context [clock (write_log ?e ?x)] => rewrite (clock_write_log e x)
    | |- context [write_error (record ?e ?x) ?f] => rewrite (write_error_record e x f)
    | |- context [write_error (acquire ?a ?x) ?f] => rewrite (write_error_acquire a x f)
    | |- context [write_error (release ?a ?x) ?f] => rewrite (write_error_release a x f)
    | |- context [write_error (tick ?x) ?f] => rewrite (write_error_tick x f)
    | |- context [write_error (saved ?g ?y ?x) ?f] => rewrite (write_error_saved g y x f)
    | |- context [write_error (write_log ?e ?x) ?f] => rewrite (write_error_write_log e x f)
    end.

(** ** Two adds at once *)

Section TwoAdds.

Variables (todoFile : string) (l : Locker) (w : World) (list : todo.List).
Variables (r1 r2 : http.Request) (t1 t2 : string).
Hypothesis free : is_held l w = false.
Hypothesis Hload : load todoFile w = inr list.
Hypothesis Hw : write_error w todoFile = None.
Hypothesis Hp1 : http.Path (http.Url r1) = "".
Hypothesis Hp2 : http.Path (http.Url r2) = "".
Hypothesis Hm1 : http.Method r1 = http.MethodPost.
Hypothesis Hm2 : http.Method r2 = http.MethodPost.
Hypothesis Hd1 : Decode_item (http.Body r1) = (t1, None).
Hypothesis Hd2 : Decode_item (http.Body r2) = (t2, None).

(** Answer a question about a world reached from [w]. *)
Ltac answer := ask; first [ exact free | exact Hload | exact Hw | reflexivity ].

(** The equation of the next step of program [p] in world [W]; [found]
    receives it, [ended] runs when there is no step. *)
Ltac next_step p W found ended :=
  lazymatch p with
  | Ret _ => ended (@eq_refl _ (@None (Prog http.Response * World)))
  | Call ?f ?k => found (step1_Call f k W)
  | Lock ?a ?k =>
      first
        [ let E := fresh "E" in
          assert (E : is_held a W = false) by answer;
          found (step1_Lock_free a k W E)
        | let E := fresh "E" in
          assert (E : is_held a W = true) by answer;
          ended (step1_Lock_held a k W E) ]
  | Unlock ?a ?k =>
      let E := fresh "E" in
      assert (E : is_held a W = true) by answer;
      found (step1_Unlock_held a k W E)
  | ListGet ?f ?k =>
      let E := fresh "E" in
      eassert (E : load f W = _) by answer;
      found (step1_Get f k W _ E)
  | ListSave ?f ?x ?k =>
      let E := fresh "E" in
      assert (E : write_error W f = None) by answer;
      found (step1_Save_ok f x k W E)
  | TimeNow ?k =>
      let E := fresh "E" in
      eassert (E : clock W = _) by answer;
      found (step1_Now k W _ E)
  | _ => idtac "no step for" p; fail
  end.

(** Follow the first choice of the schedule in [H]. *)
Ltac advance H :=
  lazymatch type of H with
  | interleave (true :: ?s) ?p1 ?p2 ?W = _ =>
      next_step p1 W
        ltac:(fun E => rewrite (interleave_left s p1 _ p2 W _ E) in H)
        ltac:(fun E => rewrite (interleave_left_stuck s p1 p2 W E) in H;
                       discriminate H)
  | interleave (false :: ?s) ?p1 ?p2 ?W = _ =>
      next_step p2 W
        ltac:(fun E => rewrite (interleave_right s p1 p2 _ W _ E) in H)
        ltac:(fun E => rewrite (interleave_right_stuck s p1 p2 W E) in H;
                       discriminate H)
  end.

(** Follow every schedule to its end; what is left are the schedules on
    which both requests have been answered. *)
Ltac walk H :=
  lazymatch type of H with
  | interleave ?s _ _ _ = _ =>
      destruct s as [|[|] s];
      [ cbn [interleave] in H; try discriminate H
      | advance H; cbn [defer bind] in H; walk H
      | advance H; cbn [defer bind] in H; walk H ]
  | _ => idtac
  end.

Ltac finish H :=
  injection H as <- <- <-;
  split; [reflexivity|]; split; [reflexivity|];
  eexists; eexists; split; [|split; [|split]];
  [ | erewrite events_since_app by (observe; reflexivity);
      cbn [loads]; unfold todo.Add; reflexivity
    | ask; unfold todo.Add; rewrite <- app_assoc; reflexivity
    | ask; reflexivity ];
  first [ left; split; reflexivity | right; split; reflexivity ].

Lemma two_adds_serialized sched resp1 resp2 w' :
  interleave sched (todoRouter todoFile l r1) (todoRouter todoFile l r2) w =
    Some (Ret resp1, Ret resp2, w') ->
  both_added todoFile l w list t1 t2 resp1 resp2 w'.
Proof using free Hload Hw Hp1 Hp2 Hm1 Hm2 Hd1 Hd2.
  unfold todoRouter. rewrite Hp1, Hp2, Hm1, Hm2. strings.
  unfold addHandler, replyTextContent. cbv zeta. rewrite Hd1, Hd2.
  cbn [fst snd defer].
  intros H. walk H. all: finish H.
Qed.

(** Follow the first choice of the schedule in the goal. *)
Ltac advance_goal :=
  lazymatch goal with
  | |- interleave (true :: ?s) ?p1 ?p2 ?W = _ =>
      next_step p1 W
        ltac:(fun E => rewrite (interleave_left s p1 _ p2 W _ E))
        ltac:(fun E => fail)
  | |- interleave (false :: ?s) ?p1 ?p2 ?W = _ =>
      next_step p2 W
        ltac:(fun E => rewrite (interleave_right s p1 p2 _ W _ E))
        ltac:(fun E => fail)
  end; cbn [defer bind].

Lemma two_adds_can_finish :
  exists resp1 resp2 w',
    interleave one_after_the_other
      (todoRouter todoFile l r1) (todoRouter todoFile l r2) w =
    Some (Ret resp1, Ret resp2, w').
Proof using free Hload Hw Hp1 Hp2 Hm1 Hm2 Hd1 Hd2.
  unfold todoRouter. rewrite Hp1, Hp2, Hm1, Hm2. strings.
  unfold addHandler, replyTextContent. cbv zeta. rewrite Hd1, Hd2.
  cbn [fst snd defer]. unfold one_after_the_other. cbn [repeat app].
  do 3 eexists. do 16 advance_goal. reflexivity.
Qed.

End TwoAdds.

Section Mux.

Lemma newMux_todo todoFile r :
  on_todo_mount (http.Path (http.Url r)) ->
  newMux todoFile r = todoRouter todoFile mu (stripped r).
Proof.
  destruct r as [m [p q] b]. cbn [http.Path http.Url].
  intros [-> | ->]; reflexivity.
Qed.

End Mux.

(** Two add requests served at once through [newMux], on either mount of
    the router, are serialized by the one mutex: on every schedule that
    lets both finish, both are answered 201, the request that takes the
    mutex second loads the list with the item of the first already in it (so
    the two loads never see the same list), and the file ends with both
    items; no update is lost. *)
Theorem concurrent_adds_serialized
    (todoFile : string) (r1 r2 : http.Request) (w : World) (list : todo.List)
    (t1 t2 : string) (sched : Datatypes.list bool)
    (resp1 resp2 : http.Response) (w' : World) :
  is_held mu w = false ->
  load todoFile w = inr list ->
  write_error w todoFile = None ->
  on_todo_mount (http.Path (http.Url r1)) ->
  on_todo_mount (http.Path (http.Url r2)) ->
  http.Method r1 = http.MethodPost ->
  http.Method r2 = http.MethodPost ->
  Decode_item (http.Body r1) = (t1, None) ->
  Decode_item (http.Body r2) = (t2, None) ->
  interleave sched (newMux todoFile r1) (newMux todoFile r2) w =
    Some (Ret resp1, Ret resp2, w') ->
  both_added todoFile mu w list t1 t2 resp1 resp2 w'.
Proof.
  intros Hfree Hload Hw Hp1 Hp2 Hm1 Hm2 Hd1 Hd2.
  rewrite (newMux_todo _ _ Hp1), (newMux_todo _ _ Hp2).
  now apply two_adds_serialized.
Qed.

(** Such schedules exist: the one that serves the first request to its end
    and then the second answers both. *)
Theorem concurrent_adds_can_finish
    (todoFile : string) (r1 r2 : http.Request) (w : World) (list : todo.List)
    (t1 t2 : string) :
  is_held mu w = false ->
  load todoFile w = inr list ->
  write_error w todoFile = None ->
  on_todo_mount (http.Path (http.Url r1)) ->
  on_todo_mount (http.Path (http.Url r2)) ->
  http.Method r1 = http.MethodPost ->
  http.Method r2 = http.MethodPost ->
  Decode_item (http.Body r1) = (t1, None) ->
  Decode_item (http.Body r2) = (t2, None) ->
  exists resp1 resp2 w',
    interleave one_after_the_other (newMux todoFile r1) (newMux todoFile r2) w =
      Some (Ret resp1, Ret resp2, w') /\
    both_added todoFile mu w list t1 t2 resp1 resp2 w'.
Proof.
  intros Hfree Hload Hw Hp1 Hp2 Hm1 Hm2 Hd1 Hd2.
  destruct (two_adds_can_finish todoFile mu w list (stripped r1) (stripped r2)
              t1 t2 Hfree Hload Hw eq_refl eq_refl Hm1 Hm2 Hd1 Hd2)
    as (resp1 & resp2 & w' & H).
  exists resp1, resp2, w'.
  rewrite (newMux_todo _ _ Hp1), (newMux_todo _ _ Hp2). split; [exact H|].
  now apply (two_adds_serialized todoFile mu w list (stripped r1) (stripped r2)
               t1 t2 Hfree Hload Hw eq_refl eq_refl Hm1 Hm2 Hd1 Hd2
               one_after_the_other).
Qed.

Lemma concurrent_adds_witness :
  both_added "todo.json" mu (Sample.world [Sample.eggs]) [Sample.eggs]
    "buy milk" "buy eggs"
    (text_reply http.StatusCreated "") (text_reply http.StatusCreated "")
    after_two_adds.
Proof.
  apply (concurrent_adds_serialized "todo.json"
           (add_request "/todo" "buy milk") (add_request "/todo/" "buy eggs")
           (Sample.world [Sample.eggs]) [Sample.eggs] "buy milk" "buy eggs"
           second_enters_first);
    first [ left; reflexivity | right; reflexivity | vm_compute; reflexivity ].
Defined.

Lemma concurrent_adds_can_finish_witness :
  exists resp1 resp2 w',
    interleave one_after_the_other
      (newMux "todo.json" (add_request "/todo" "buy milk"))
      (newMux "todo.json" (add_request "/todo/" "buy eggs"))
      (Sample.world [Sample.eggs]) =
      Some (Ret resp1, Ret resp2, w') /\
    both_added "todo.json" mu (Sample.world [Sample.eggs]) [Sample.eggs]
      "buy milk" "buy eggs" resp1 resp2 w'.
Proof.
  apply (concurrent_adds_can_finish "todo.json"
           (add_request "/todo" "buy milk") (add_request "/todo/" "buy eggs")
           (Sample.world [Sample.eggs]) [Sample.eggs] "buy milk" "buy eggs");
    first [ left; reflexivity | right; reflexivity | vm_compute; reflexivity ].
Defined.

(** ** The router in closed form *)

Section ClosedForm.

Variables (todoFile : string) (l : Locker) (r : http.Request) (w : World).
Hypothesis free : is_held l w = false.

Lemma save_fails f x w0 err :
  write_error w0 f = Some err ->
  save f x w0 = (Some err, record (EvSave f x (Some err)) w0).
Proof. unfold save. now intros ->. Qed.

(** The two ways a save can go. *)
Ltac saving :=
  match goal with
  | |- context [save ?f ?x ?W] =>
      let E := fresh "E" in
      destruct (write_error W f) eqn:E;
      [ rewrite (save_fails f x W _ E) | rewrite (save_ok f x W E) ]
  end.

(** The deferred unlock at the end of a handler body that left the mutex
    locked. *)
Ltac unlock :=
  cbn [run defer bind fst snd];
  match goal with
  | |- context [is_held l ?W] =>
      replace (is_held l W) with true by (symmetry; ask; reflexivity)
  end;
  cbn [run]; reflexivity.

Lemma run_todoRouter :
  run (todoRouter todoFile l r) w = router_result todoFile l r w.
Proof using free.
  unfold todoRouter, router_result, failed, answered_json, stored, loaded.
  cbn [run defer]. rewrite is_held_record, free. cbn [run defer].
  rewrite load_acquire, load_record.
  destruct (load todoFile w) as [err|list].
  { unfold replyError. unlock. }
  destruct (String.eqb (http.Path (http.Url r)) "").
  - destruct (String.eqb (http.Method r) http.MethodGet).
    { unfold getAllHandler, replyJSONContent, replyError. cbv zeta.
      cbn [run defer]. destruct (encoder _ _); unlock. }
    destruct (String.eqb (http.Method r) http.MethodPost).
    { unfold addHandler, replyError, replyTextContent. cbv zeta.
      destruct (Decode_item (http.Body r)) as [task [derr|]]; cbn [fst snd].
      { unlock. }
      cbn [run defer]. rewrite clock_record. saving; unlock. }
    unfold replyError. unlock.
  - cbn [run defer].
    destruct (validateID (http.Path (http.Url r)) list) as [id [err|]].
    { unfold replyError. destruct (errors_Is err ErrNoFound); unlock. }
    destruct (String.eqb (http.Method r) http.MethodGet).
    { unfold getOneHandler, replyJSONContent, replyError. cbv zeta.
      destruct (Go.slice list (Go.wrap (id - 1)) id); [|unlock].
      cbn [run defer]. destruct (encoder _ _); unlock. }
    destruct (String.eqb (http.Method r) http.MethodDelete).
    { unfold deleteHandler, replyError, replyTextContent. cbv zeta.
      cbn [run defer]. saving; unlock. }
    destruct (String.eqb (http.Method r) http.MethodPatch).
    { unfold pathHandler, replyError, replyTextContent. cbv zeta.
      destruct (http.Query (http.Url r) !! "complete"); [|unlock].
      cbn [run defer]. saving; unlock. }
    unfold replyError. unlock.
Qed.

End ClosedForm.

(** ** What every request on the todo mount has in common *)

Section EveryRequest.

Lemma held_after_unlock l w0 w1 :
  is_held l w0 = false -> held w1 = l :: held w0 ->
  held (release l w1) = held w0.
Proof.
  intros Hfree H. cbn [held release record]. rewrite H. cbn [List.filter].
  rewrite Nat.eqb_refl. cbn [negb]. now apply release_others.
Qed.

Lemma validated_slice (list : todo.List) path id :
  validateID path list = (id, None) ->
  exists it, Go.slice list (Go.wrap (id - 1)) id = Some [it].
Proof.
  intros Hid. apply validateID_ok_iff in Hid as [Hparse Hrange].
  destruct (at_position_Some list id Hrange) as [it Hit].
  exists it. apply slice_one; [|exact Hit]. apply Atoi_range in Hparse. lia.
Qed.

End EveryRequest.

(** Split the closed form of the router into its cases; the case of a
    slice out of bounds is closed by the validation that precedes it. *)
Ltac router_cases :=
  try unfold router_result, answered_json, stored, failed;
  repeat match goal with
    | |- context [match load ?f ?w with _ => _ end] =>
        let E := fresh "Eload" in destruct (load f w) eqn:E
    | |- context [if String.eqb ?a ?b then _ else _] =>
        let E := fresh "Estr" in destruct (String.eqb a b) eqn:E
    | |- context [match Decode_item ?b with _ => _ end] =>
        let E := fresh "Edec" in destruct (Decode_item b) as [? [?|]] eqn:E
    | |- context [match validateID ?p ?x with _ => _ end] =>
        let E := fresh "Eid" in destruct (validateID p x) as [? [?|]] eqn:E
    | |- context [if errors_Is ?e ?t then _ else _] =>
        let E := fresh "Eis" in destruct (errors_Is e t) eqn:E
    | Eid : validateID ?p ?x = (?id, None)
      |- context [match Go.slice ?x (Go.wrap (?id - 1)) ?id with _ => _ end] =>
        let it := fresh "it" in let E := fresh "Eslice" in
        destruct (validated_slice x p id Eid) as [it E]; rewrite E
    | |- context [match ?q !! "complete" with _ => _ end] =>
        let E := fresh "Equery" in destruct (q !! "complete") eqn:E
    | |- context [match encoder ?w ?x with _ => _ end] =>
        let E := fresh "Eenc" in destruct (encoder w x) eqn:E
    | |- context [match write_error ?w ?f with _ => _ end] =>
        let E := fresh "Ewrite" in destruct (write_error w f) eqn:E
    end.

(** Every request on the todo mount is answered, whatever the method, the
    path, the body and the state of the file, as long as the mutex is free
    when it arrives: the router neither panics nor stays blocked, and when
    it returns the mutex is free again and the set of locked mutexes is what
    it was. *)
Theorem router_always_answers
    (todoFile : string) (l : Locker) (r : http.Request) (w : World) :
  is_held l w = false ->
  let out := run (todoRouter todoFile l r) w in
  (exists resp, fst out = Returned resp) /\
  is_held l (snd out) = false /\
  held (snd out) = held w.
Proof.
  intros Hfree out. subst out. rewrite (run_todoRouter _ _ _ _ Hfree).
  router_cases; cbn [fst snd]; (split; [eexists; reflexivity|]);
    (split; [apply is_held_release|]);
    (apply held_after_unlock; [exact Hfree | reflexivity]).
Qed.

Section Replies.

Lemma Status_Error text code : http.Status (http.Error text code) = code.
Proof. reflexivity. Qed.

Lemma Status_text_reply code content : http.Status (text_reply code content) = code.
Proof. reflexivity. Qed.

Lemma Status_json_reply code body : http.Status (json_reply code body) = code.
Proof. reflexivity. Qed.

End Replies.

Ltac statuses :=
  rewrite ?Status_Error, ?Status_text_reply, ?Status_json_reply;
  unfold http.StatusOK, http.StatusCreated, http.StatusNoContent,
    http.StatusBadRequest, http.StatusNotFound, http.StatusMethodNotAllowed,
    http.StatusInternalServerError, router_statuses.

(** The replies of the router follow one discipline.  The status is one of
    200, 201, 204, 400, 404, 405 and 500.  A reply below 400 logs nothing.
    A reply from 400 up is exactly what [http.Error] writes for that status,
    the standard text of the status and a new line, so that no detail of the
    error reaches the client; the detail goes to the log, in exactly one new
    line that carries the URL, the method and the status of the reply. *)
Theorem router_reply_discipline
    (todoFile : string) (l : Locker) (r : http.Request) (w : World)
    (resp : http.Response) :
  is_held l w = false ->
  fst (run (todoRouter todoFile l r) w) = Returned resp ->
  let w' := snd (run (todoRouter todoFile l r) w) in
  In (http.Status resp) router_statuses /\
  (http.Status resp < 400 -> logged w' = logged w) /\
  (400 <= http.Status resp ->
     resp = http.Error (http.StatusText (http.Status resp)) (http.Status resp) /\
     exists message,
       logged w' =
         logged w ++ [mkLogLine (http.Url r) (http.Method r)
                                (http.Status resp) message]).
Proof.
  intros Hfree. rewrite (run_todoRouter _ _ _ _ Hfree).
  router_cases; cbn [fst snd]; intros [= <-]; statuses;
    (split; [cbn [In]; tauto|]);
    (split; [intros ?; first [lia | reflexivity]|]);
    intros ?; first [lia | split; [reflexivity | eexists; reflexivity]].
Qed.

(** The events of the request that has led from [w] to [w']. *)
Ltac events Eload :=
  erewrite events_since_app by (observe; rewrite ?Eload; reflexivity).

(** A GET request never writes: whatever the path and whatever the reply,
    no mutator of the list is called, [List.Save] is not called and the
    file system is what it was. *)
Theorem get_never_writes
    (todoFile : string) (l : Locker) (r : http.Request) (w : World) :
  is_held l w = false ->
  http.Method r = http.MethodGet ->
  let w' := snd (run (todoRouter todoFile l r) w) in
  existsb is_save (events_since w w') = false /\
  existsb (is_call_of mutator) (events_since w w') = false /\
  files w' = files w.
Proof.
  intros Hfree Hm. rewrite (run_todoRouter _ _ _ _ Hfree).
  unfold router_result, answered_json, stored, failed. rewrite Hm. strings.
  router_cases; cbn [fst snd]; events Eload; repeat split.
Qed.

(** While the mutex is held by someone else the router waits, and it waits
    before it has touched anything: the file is not read, nothing is
    logged, no handler runs. *)
Theorem router_waits_for_the_mutex
    (todoFile : string) (l : Locker) (r : http.Request) (w : World) :
  is_held l w = true ->
  let out := run (todoRouter todoFile l r) w in
  fst out = Blocked /\
  events_since w (snd out) = [EvCall FtodoRouter] /\
  files (snd out) = files w /\
  logged (snd out) = logged w.
Proof.
  intros Hheld out. subst out. unfold todoRouter. cbn [run].
  rewrite is_held_record, Hheld. cbn [fst snd].
  erewrite events_since_app by (observe; reflexivity). repeat split.
Qed.

(** The root handler never takes the mutex and never reads the file: it
    answers also while the mutex is held, and all it leaves behind is at
    most one log line. *)
Theorem rootHandler_needs_no_mutex (r : http.Request) (w : World) :
  let out := run (rootHandler r) w in
  (exists resp, fst out = Returned resp) /\
  held (snd out) = held w /\
  files (snd out) = files w /\
  existsb (fun e => match e with
                    | EvLock _ | EvUnlock _ | EvGet _ _ | EvSave _ _ _ => true
                    | _ => false
                    end) (events_since w (snd out)) = false.
Proof.
  unfold rootHandler, replyError, replyTextContent.
  destruct (negb _); cbn [run fst snd];
    (split; [eexists; reflexivity|]);
    erewrite events_since_app by (observe; reflexivity); repeat split.
Qed.

(** ** Rejections *)

Section Rejections.

Lemma validateID_NoFound_iff path (list : todo.List) id err :
  validateID path list = (id, Some err) ->
  (errors_Is err ErrNoFound = true <->
   exists i, Go.Atoi path = inr i /\ Go.len list < i).
Proof.
  unfold validateID. destruct (Go.Atoi path) as [e|i].
  - intros [= <- <-]. split; [discriminate | intros (? & ? & _); discriminate].
  - destruct (i <? 1) eqn:E1; [|destruct (i >? Go.len list) eqn:E2].
    + intros [= <- <-]. zbool. split; [discriminate|].
      intros (j & [= <-] & Hj). unfold Go.len in Hj. lia.
    + intros [= <- <-]. zbool. split; [|reflexivity]. intros _. eauto.
    + discriminate.
Qed.

End Rejections.

(** An identifier that [validateID] refuses is answered before the method
    is looked at: whatever the method, the reply is 404 when the identifier
    is an integer above the length of the list and 400 otherwise, and apart
    from the validation nothing runs: no handler, no mutator, no save. *)
Theorem refused_id_answered_before_method
    (todoFile : string) (l : Locker) (r : http.Request) (w : World)
    (list : todo.List) (id : Z) (err : error) :
  is_held l w = false ->
  load todoFile w = inr list ->
  http.Path (http.Url r) <> "" ->
  validateID (http.Path (http.Url r)) list = (id, Some err) ->
  let out := run (todoRouter todoFile l r) w in
  let code := refusal_status err in
  fst out = Returned (http.Error (http.StatusText code) code) /\
  (code = 404 <->
   exists i, Go.Atoi (http.Path (http.Url r)) = inr i /\ Go.len list < i) /\
  (code = 400 \/ code = 404) /\
  events_since w (snd out) =
    [ EvCall FtodoRouter; EvLock l; EvGet todoFile (inr list);
      EvCall FvalidateID;
      EvLog (mkLogLine (http.Url r) (http.Method r) code (MsgError err));
      EvUnlock l ] /\
  files (snd out) = files w.
Proof.
  intros Hfree Hload Hp Hid out code. subst out code.
  rewrite (run_todoRouter _ _ _ _ Hfree).
  unfold router_result, answered_json, stored, failed, refusal_status.
  rewrite Hload, Hid. apply String.eqb_neq in Hp. rewrite Hp.
  pose proof (validateID_NoFound_iff _ _ _ _ Hid) as Hnf.
  destruct (errors_Is err ErrNoFound); cbn [fst snd];
    events Hload; (split; [reflexivity|]); (split; [|split; [|split; reflexivity]]).
  - split; [intros _; now apply Hnf | reflexivity].
  - now right.
  - split; [discriminate|]. intros H. apply Hnf in H. discriminate.
  - now left.
Qed.

(** A request the router has no operation for is answered 405, and nothing
    is written. *)
Theorem unsupported_method_is_405
    (todoFile : string) (l : Locker) (r : http.Request) (w : World)
    (list : todo.List) :
  is_held l w = false ->
  load todoFile w = inr list ->
  unsupported r list ->
  let out := run (todoRouter todoFile l r) w in
  fst out = Returned (http.Error "Method Not Allowed" http.StatusMethodNotAllowed) /\
  existsb is_save (events_since w (snd out)) = false /\
  existsb (is_call_of mutator) (events_since w (snd out)) = false /\
  files (snd out) = files w.
Proof.
  intros Hfree Hload Hun out. subst out.
  rewrite (run_todoRouter _ _ _ _ Hfree).
  unfold router_result, answered_json, stored, failed. rewrite Hload.
  destruct Hun as [(Hp & Hg & Ho) | ([id Hid] & Hg & Hd & Hc)].
  - rewrite Hp. apply String.eqb_neq in Hg, Ho. rewrite Hg, Ho. strings.
    cbn [fst snd]. events Hload. repeat split.
  - rewrite (validateID_nonempty _ _ _ Hid), Hid.
    apply String.eqb_neq in Hg, Hd, Hc. rewrite Hg, Hd, Hc.
    cbn [fst snd]. events Hload. repeat split.
Qed.

(** An add whose body does not decode is answered 400 before anything else
    happens: the clock is not read, no item is added, nothing is saved. *)
Theorem add_with_bad_body_is_400
    (todoFile : string) (l : Locker) (r : http.Request) (w : World)
    (list : todo.List) (task : string) (err : json.DecodeError) :
  is_held l w = false ->
  load todoFile w = inr list ->
  http.Path (http.Url r) = "" ->
  http.Method r = http.MethodPost ->
  Decode_item (http.Body r) = (task, Some err) ->
  let out := run (todoRouter todoFile l r) w in
  fst out = Returned (http.Error "Bad Request" http.StatusBadRequest) /\
  events_since w (snd out) =
    [ EvCall FtodoRouter; EvLock l; EvGet todoFile (inr list);
      EvCall FaddHandler;
      EvLog (mkLogLine (http.Url r) (http.Method r) http.StatusBadRequest
                       (MsgInvalidJSON err));
      EvUnlock l ] /\
  files (snd out) = files w /\
  clock (snd out) = clock w.
Proof.
  intros Hfree Hload Hp Hm Hd out. subst out.
  rewrite (run_todoRouter _ _ _ _ Hfree).
  unfold router_result, answered_json, stored, failed.
  rewrite Hload, Hp, Hd. strings. rewrite Hm. strings.
  cbn [fst snd]. events Hload. repeat split.
Qed.

(** ** Failures of the store and of the encoder *)

(** When [List.Save] fails, each of the three requests that save is
    answered 500; the error of the save goes to the log and not to the
    client, and the save was tried exactly once. *)
Theorem save_failure_is_500
    (todoFile : string) (l : Locker) (r : http.Request) (w : World)
    (list : todo.List) (err : string) :
  is_held l w = false ->
  load todoFile w = inr list ->
  write_error w todoFile = Some err ->
  saving_request r list ->
  let out := run (todoRouter todoFile l r) w in
  fst out = Returned (http.Error "Internal Server Error"
                                 http.StatusInternalServerError) /\
  logged (snd out) =
    logged w ++ [mkLogLine (http.Url r) (http.Method r)
                           http.StatusInternalServerError (MsgText err)] /\
  List.length (List.filter is_save (events_since w (snd out))) = 1%nat.
Proof.
  intros Hfree Hload Hw Hsave out. subst out.
  rewrite (run_todoRouter _ _ _ _ Hfree).
  unfold router_result, answered_json, stored, failed. rewrite Hload.
  destruct Hsave as [(Hp & Hm & Hd) | ([id Hid] & [Hm | [Hm [vs Hq]]])].
  - rewrite Hp, Hm. strings.
    destruct (Decode_item (http.Body r)) as [task [derr|]]; [discriminate|].
    unfold loaded. ask. rewrite Hw. cbn [fst snd]. events Hload. repeat split.
  - rewrite (validateID_nonempty _ _ _ Hid), Hid, Hm. strings.
    unfold loaded. ask. rewrite Hw. cbn [fst snd]. events Hload. repeat split.
  - rewrite (validateID_nonempty _ _ _ Hid), Hid, Hm, Hq. strings.
    unfold loaded. ask. rewrite Hw. cbn [fst snd]. events Hload. repeat split.
Qed.


(** ** Routing *)

Section Prefixes.



End Prefixes.


(** ** Which identifiers are accepted *)

Section Numerals.

Lemma digit_val_range c : Go.is_digit c = true -> 0 <= Go.digit_val c <= 9.
Proof. unfold Go.is_digit, Go.digit_val. intros H. zbool. lia. Qed.

Lemma digit_not_sign c :
  Go.is_digit c = true -> Ascii.eqb c "-" = false /\ Ascii.eqb c "+" = false.
Proof.
  intros H. split; apply Ascii.eqb_neq; intros ->; discriminate H.
Qed.

Lemma decimal_ge s : forall n,
  all_digits s = true -> 0 <= n -> n <= decimal s n.
Proof.
  induction s as [|c rest IH]; intros n Hd Hn; cbn in *; [lia|].
  apply andb_true_iff in Hd as [Hc Hd].
  pose proof (digit_val_range c Hc).
  specialize (IH (n * 10 + Go.digit_val c) Hd ltac:(lia)). lia.
Qed.

Lemma parseDigits_inr s : forall n r,
  0 <= n <= Go.maxUint64 ->
  (Go.parseDigits s n = inr r <->
   all_digits s = true /\ decimal s n = r /\ r <= Go.maxUint64).
Proof.
  induction s as [|c rest IH]; intros n r Hn; cbn [Go.parseDigits all_digits decimal].
  - split; [intros [= <-]; repeat split; lia | intros (_ & <- & _); reflexivity].
  - destruct (Go.is_digit c) eqn:Hc; cbn [andb].
    2:{ split; [discriminate | intros (? & _); discriminate]. }
    pose proof (digit_val_range c Hc) as Hv.
    destruct (n * 10 + Go.digit_val c >? Go.maxUint64) eqn:Hov.
    + zbool. split; [discriminate|]. intros (Hd & <- & Hle).
      pose proof (decimal_ge rest (n * 10 + Go.digit_val c) Hd ltac:(lia)). lia.
    + zbool. apply IH. lia.
Qed.

Lemma Atoi_unsigned s i :
  s <> "" -> all_digits s = true ->
  (Go.Atoi s = inr i <-> decimal s 0 = i /\ i <= Go.maxInt).
Proof.
  intros Hne Hd. destruct s as [|c rest]; [congruence|].
  pose proof Hd as Hd'. cbn [all_digits] in Hd'.
  apply andb_true_iff in Hd' as [Hc _].
  destruct (digit_not_sign c Hc) as [Hm Hp].
  unfold Go.Atoi. rewrite Hm, Hp. cbv zeta. cbn [orb negb andb].
  destruct (Go.parseDigits (String c rest) 0) as [k|un] eqn:Hparse.
  - split; [discriminate|]. intros [Hv Hle].
    assert (Hex : Go.parseDigits (String c rest) 0 = inr i).
    { apply parseDigits_inr; [unfold Go.maxUint64; lia|].
      repeat split; [exact Hd | exact Hv |].
      unfold Go.maxInt, Go.maxUint64 in *. lia. }
    congruence.
  - apply parseDigits_inr in Hparse as (_ & Hv & Hle); [|unfold Go.maxUint64; lia].
    unfold Go.maxInt. destruct (un >=? 2 ^ 63) eqn:Hc2; zbool.
    + split; [discriminate|]. intros [Hv' Hle']. lia.
    + split; [intros [= <-]; split; [exact Hv | lia]|].
      intros [Hv' _]. f_equal. lia.
Qed.

Lemma Atoi_positive s i :
  Go.Atoi s = inr i -> 1 <= i ->
  exists digits, numeral_of s digits /\ decimal digits 0 = i /\ i <= Go.maxInt.
Proof.
  intros H Hi. pose proof (Atoi_range _ _ H) as Hr.
  unfold Go.Atoi in H. destruct s as [|c0 rest]; [discriminate|].
  cbv zeta in H.
  destruct (Ascii.eqb c0 "-") eqn:Hm; cbn [orb negb andb] in H.
  - (* a minus sign gives a value that is not positive *)
    destruct rest as [|d ds]; [discriminate|].
    destruct (Go.parseDigits (String d ds) 0) as [k|un] eqn:Hparse; [discriminate|].
    apply parseDigits_inr in Hparse as (Hd & Hv & _); [|unfold Go.maxUint64; lia].
    pose proof (decimal_ge _ 0 Hd ltac:(lia)).
    destruct (un >? 2 ^ 63); [discriminate|]. injection H as <-. lia.
  - destruct (Ascii.eqb c0 "+") eqn:Hp.
    + apply Ascii.eqb_eq in Hp. subst c0.
      destruct rest as [|d ds]; [discriminate|].
      destruct (Go.parseDigits (String d ds) 0) as [k|un] eqn:Hparse; [discriminate|].
      apply parseDigits_inr in Hparse as (Hd & Hv & _); [|unfold Go.maxUint64; lia].
      destruct (un >=? 2 ^ 63); [discriminate|]. injection H as <-.
      exists (String d ds). repeat split; try assumption; try lia.
      * now right.
      * discriminate.
    + destruct (Go.parseDigits (String c0 rest) 0) as [k|un] eqn:Hparse; [discriminate|].
      apply parseDigits_inr in Hparse as (Hd & Hv & _); [|unfold Go.maxUint64; lia].
      destruct (un >=? 2 ^ 63); [discriminate|]. injection H as <-.
      exists (String c0 rest). repeat split; try assumption; try lia.
      * now left.
      * discriminate.
Qed.

Lemma Atoi_plus digits i :
  digits <> "" -> all_digits digits = true ->
  (Go.Atoi (String "+" digits) = inr i <-> Go.Atoi digits = inr i).
Proof.
  intros Hne Hd. rewrite (Atoi_unsigned digits i Hne Hd).
  destruct digits as [|c rest]; [congruence|].
  unfold Go.Atoi. cbv zeta. cbn [Ascii.eqb Bool.eqb orb negb andb].
  destruct (Go.parseDigits (String c rest) 0) as [k|un] eqn:Hparse.
  - split; [discriminate|]. intros [Hv Hle].
    assert (Hex : Go.parseDigits (String c rest) 0 = inr i).
    { apply parseDigits_inr; [unfold Go.maxUint64; lia|].
      repeat split; [exact Hd | exact Hv |].
      unfold Go.maxInt, Go.maxUint64 in *. lia. }
    congruence.
  - apply parseDigits_inr in Hparse as (_ & Hv & Hle); [|unfold Go.maxUint64; lia].
    unfold Go.maxInt. destruct (un >=? 2 ^ 63) eqn:Hc2; zbool.
    + split; [discriminate|]. intros [Hv' Hle']. lia.
    + split; [intros [= <-]; split; [exact Hv | lia]|].
      intros [Hv' _]. f_equal. lia.
Qed.

End Numerals.

(** [validateID] accepts exactly the numerals in range: the path segment is
    a non-empty string of decimal digits, with an optional plus sign in
    front and with any number of leading zeros, whose value is between 1 and
    the length of the list (and fits [int]); the identifier returned is that
    value.  A minus sign, a space, a letter or an empty segment is never
    accepted. *)
Theorem validateID_accepts_numerals (path : string) (list : todo.List) (i : Z) :
  validateID path list = (i, None) <->
  exists digits,
    numeral_of path digits /\ decimal digits 0 = i /\
    1 <= i <= Go.len list /\ i <= Go.maxInt.
Proof.
  rewrite validateID_ok_iff. split.
  - intros [H Hr]. destruct (Atoi_positive _ _ H ltac:(lia)) as (ds & Hn & Hv & Hm).
    exists ds. auto.
  - intros (ds & ([-> | ->] & Hne & Hd) & Hv & Hr & Hm); (split; [|exact Hr]).
    + now apply Atoi_unsigned.
    + apply Atoi_plus; [assumption..|]. now apply Atoi_unsigned.
Qed.

(** ** Instances *)

Lemma router_always_answers_witness :
  let out := run (todoRouter "todo.json" mu
                    (Sample.request "PUT" "x1" ∅ Sample.no_body))
                 (Sample.world [Sample.milk]) in
  (exists resp, fst out = Returned resp) /\
  is_held mu (snd out) = false /\
  held (snd out) = held (Sample.world [Sample.milk]).
Proof.
  apply (router_always_answers "todo.json" mu
           (Sample.request "PUT" "x1" ∅ Sample.no_body)
           (Sample.world [Sample.milk])).
  reflexivity.
Defined.

Lemma router_reply_discipline_witness :
  let r := Sample.request "DELETE" "9" ∅ Sample.no_body in
  let w := Sample.world [Sample.milk] in
  let resp := http.Error "Not Found" http.StatusNotFound in
  let w' := snd (run (todoRouter "todo.json" mu r) w) in
  In (http.Status resp) router_statuses /\
  (http.Status resp < 400 -> logged w' = logged w) /\
  (400 <= http.Status resp ->
     resp = http.Error (http.StatusText (http.Status resp)) (http.Status resp) /\
     exists message,
       logged w' =
         logged w ++ [mkLogLine (http.Url r) (http.Method r)
                                (http.Status resp) message]).
Proof.
  apply (router_reply_discipline "todo.json" mu
           (Sample.request "DELETE" "9" ∅ Sample.no_body)
           (Sample.world [Sample.milk])
           (http.Error "Not Found" http.StatusNotFound));
    vm_compute; reflexivity.
Defined.

Lemma get_never_writes_witness :
  let w := Sample.world [Sample.milk] in
  let w' := snd (run (todoRouter "todo.json" mu
                        (Sample.request "GET" "1" ∅ Sample.no_body)) w) in
  existsb is_save (events_since w w') = false /\
  existsb (is_call_of mutator) (events_since w w') = false /\
  files w' = files w.
Proof.
  apply (get_never_writes "todo.json" mu
           (Sample.request "GET" "1" ∅ Sample.no_body)
           (Sample.world [Sample.milk])); reflexivity.
Defined.

Lemma router_waits_witness :
  let w := busy_world [Sample.milk] in
  let out := run (todoRouter "todo.json" mu
                    (Sample.request "GET" "" ∅ Sample.no_body)) w in
  fst out = Blocked /\
  events_since w (snd out) = [EvCall FtodoRouter] /\
  files (snd out) = files w /\
  logged (snd out) = logged w.
Proof.
  apply (router_waits_for_the_mutex "todo.json" mu
           (Sample.request "GET" "" ∅ Sample.no_body)
           (busy_world [Sample.milk])); reflexivity.
Defined.

Lemma refused_id_witness :
  let r := Sample.request "PUT" "-3" ∅ Sample.no_body in
  let w := Sample.world [Sample.milk] in
  let err := Errorf ErrInvalidData InvalidIDLessThanOne in
  let out := run (todoRouter "todo.json" mu r) w in
  let code := refusal_status err in
  fst out = Returned (http.Error (http.StatusText code) code) /\
  (code = 404 <->
   exists i, Go.Atoi (http.Path (http.Url r)) = inr i /\ Go.len [Sample.milk] < i) /\
  (code = 400 \/ code = 404) /\
  events_since w (snd out) =
    [ EvCall FtodoRouter; EvLock mu; EvGet "todo.json" (inr [Sample.milk]);
      EvCall FvalidateID;
      EvLog (mkLogLine (http.Url r) (http.Method r) code (MsgError err));
      EvUnlock mu ] /\
  files (snd out) = files w.
Proof.
  apply (refused_id_answered_before_method "todo.json" mu
           (Sample.request "PUT" "-3" ∅ Sample.no_body)
           (Sample.world [Sample.milk]) [Sample.milk] 0
           (Errorf ErrInvalidData InvalidIDLessThanOne));
    first [ discriminate | vm_compute; reflexivity ].
Defined.

Lemma unsupported_method_witness :
  let w := Sample.world [Sample.milk] in
  let out := run (todoRouter "todo.json" mu
                    (Sample.request "PUT" "1" ∅ Sample.no_body)) w in
  fst out = Returned (http.Error "Method Not Allowed" http.StatusMethodNotAllowed) /\
  existsb is_save (events_since w (snd out)) = false /\
  existsb (is_call_of mutator) (events_since w (snd out)) = false /\
  files (snd out) = files w.
Proof.
  apply (unsupported_method_is_405 "todo.json" mu
           (Sample.request "PUT" "1" ∅ Sample.no_body)
           (Sample.world [Sample.milk]) [Sample.milk]);
    [reflexivity | reflexivity |].
  right. split; [exists 1; reflexivity|]. repeat split; discriminate.
Defined.

Lemma add_with_bad_body_witness :
  let r := Sample.request "POST" "" ∅ (json.Value (json.Array [])) in
  let w := Sample.world [Sample.milk] in
  let out := run (todoRouter "todo.json" mu r) w in
  fst out = Returned (http.Error "Bad Request" http.StatusBadRequest) /\
  events_since w (snd out) =
    [ EvCall FtodoRouter; EvLock mu; EvGet "todo.json" (inr [Sample.milk]);
      EvCall FaddHandler;
      EvLog (mkLogLine (http.Url r) (http.Method r) http.StatusBadRequest
                       (MsgInvalidJSON (json.UnmarshalTypeError "array" "")));
      EvUnlock mu ] /\
  files (snd out) = files w /\
  clock (snd out) = clock w.
Proof.
  apply (add_with_bad_body_is_400 "todo.json" mu
           (Sample.request "POST" "" ∅ (json.Value (json.Array [])))
           (Sample.world [Sample.milk]) [Sample.milk] ""
           (json.UnmarshalTypeError "array" "")); reflexivity.
Defined.

Lemma save_failure_witness :
  let r := Sample.request "DELETE" "1" ∅ Sample.no_body in
  let w := full_disk_world [Sample.milk] in
  let out := run (todoRouter "todo.json" mu r) w in
  fst out = Returned (http.Error "Internal Server Error"
                                 http.StatusInternalServerError) /\
  logged (snd out) =
    logged w ++ [mkLogLine (http.Url r) (http.Method r)
                           http.StatusInternalServerError
                           (MsgText "no space left on device")] /\
  List.length (List.filter is_save (events_since w (snd out))) = 1%nat.
Proof.
  apply (save_failure_is_500 "todo.json" mu
           (Sample.request "DELETE" "1" ∅ Sample.no_body)
           (full_disk_world [Sample.milk]) [Sample.milk]
           "no space left on device");
    [reflexivity | reflexivity | reflexivity |].
  right. split; [exists 1; reflexivity | left; reflexivity].
Defined.


(** ** What the replies carry *)

(** Every reply of the router sets its content type by its status: JSON
    for 200, plain text for 201 and 204, and for every error the plain text
    with charset and the no-sniff option that [http.Error] sets. *)
Theorem router_content_types
    (todoFile : string) (l : Locker) (r : http.Request) (w : World)
    (resp : http.Response) :
  is_held l w = false ->
  fst (run (todoRouter todoFile l r) w) = Returned resp ->
  http.Header resp !! "Content-Type" = Some (content_type_of (http.Status resp)) /\
  (400 <= http.Status resp ->
   http.Header resp !! "X-Content-Type-Options" = Some "nosniff") /\
  (http.Status resp < 400 ->
   http.Header resp !! "X-Content-Type-Options" = None).
Proof.
  intros Hfree. rewrite (run_todoRouter _ _ _ _ Hfree).
  router_cases; cbn [fst snd]; intros [= <-];
    (split; [vm_compute; reflexivity|]); statuses;
    (split; intros H; first [lia | vm_compute; reflexivity]).
Qed.

Lemma router_content_types_witness :
  let resp := json_reply http.StatusOK "{}" in
  http.Header resp !! "Content-Type" = Some (content_type_of (http.Status resp)) /\
  (400 <= http.Status resp ->
   http.Header resp !! "X-Content-Type-Options" = Some "nosniff") /\
  (http.Status resp < 400 ->
   http.Header resp !! "X-Content-Type-Options" = None).
Proof.
  apply (router_content_types "todo.json" mu
           (Sample.request "GET" "1" ∅ Sample.no_body)
           (Sample.world [Sample.milk]) (json_reply http.StatusOK "{}"));
    vm_compute; reflexivity.
Defined.

(** A get-one of a valid identifier serializes the envelope that holds
    exactly the item at that position and answers 200 with the bytes of the
    encoder; the file holds the same list afterwards. *)
Theorem get_one_returns_the_item
    (todoFile : string) (l : Locker) (r : http.Request) (w : World)
    (list : todo.List) (id : Z) (it : todo.item) (body : string) :
  is_held l w = false ->
  load todoFile w = inr list ->
  validateID (http.Path (http.Url r)) list = (id, None) ->
  http.Method r = http.MethodGet ->
  at_position list id = Some it ->
  encoder w (mkTodoResponse [it]) = inr body ->
  let out := run (todoRouter todoFile l r) w in
  fst out = Returned (json_reply http.StatusOK body) /\
  loads (events_since w (snd out)) = [inr list] /\
  List.filter (fun e => match e with EvMarshal _ _ => true | _ => false end)
              (events_since w (snd out)) =
    [EvMarshal (mkTodoResponse [it]) (inr body)] /\
  load todoFile (snd out) = inr list.
Proof.
  intros Hfree Hload Hid Hm Hit He out. subst out.
  assert (Hs : Go.slice list (Go.wrap (id - 1)) id = Some [it]).
  { apply slice_one; [|exact Hit].
    apply validateID_ok_iff in Hid as [Hparse _].
    apply Atoi_range in Hparse. lia. }
  rewrite (run_get_one _ _ _ _ Hfree _ _ _ _ Hload Hid Hm Hs He). cbn [fst snd].
  events Hload. repeat split. unfold loaded. ask. exact Hload.
Qed.

Lemma get_one_returns_the_item_witness :
  let w := Sample.world [Sample.milk; Sample.eggs] in
  let out := run (todoRouter "todo.json" mu
                    (Sample.request "GET" "+02" ∅ Sample.no_body)) w in
  fst out = Returned (json_reply http.StatusOK "{}") /\
  loads (events_since w (snd out)) = [inr [Sample.milk; Sample.eggs]] /\
  List.filter (fun e => match e with EvMarshal _ _ => true | _ => false end)
              (events_since w (snd out)) =
    [EvMarshal (mkTodoResponse [Sample.eggs]) (inr "{}")] /\
  load "todo.json" (snd out) = inr [Sample.milk; Sample.eggs].
Proof.
  apply (get_one_returns_the_item "todo.json" mu
           (Sample.request "GET" "+02" ∅ Sample.no_body)
           (Sample.world [Sample.milk; Sample.eggs])
           [Sample.milk; Sample.eggs] 2 Sample.eggs "{}");
    vm_compute; reflexivity.
Defined.

(** The value of the [complete] key is ignored: two PATCH requests for the
    same valid identifier that both carry the key, with whatever values
    (none, [true], [false]), get the same reply 204 and leave the same list
    in the file, with the item done. *)
Theorem patch_ignores_the_value
    (todoFile : string) (l : Locker) (r1 r2 : http.Request) (w : World)
    (list : todo.List) (id : Z) (vs1 vs2 : Datatypes.list string) :
  is_held l w = false ->
  load todoFile w = inr list ->
  write_error w todoFile = None ->
  http.Path (http.Url r1) = http.Path (http.Url r2) ->
  validateID (http.Path (http.Url r1)) list = (id, None) ->
  http.Method r1 = http.MethodPatch ->
  http.Method r2 = http.MethodPatch ->
  http.Query (http.Url r1) !! "complete" = Some vs1 ->
  http.Query (http.Url r2) !! "complete" = Some vs2 ->
  let out1 := run (todoRouter todoFile l r1) w in
  let out2 := run (todoRouter todoFile l r2) w in
  fst out1 = Returned (text_reply http.StatusNoContent "") /\
  fst out2 = fst out1 /\
  load todoFile (snd out1) = inr (todo.Complete list id) /\
  load todoFile (snd out2) = load todoFile (snd out1) /\
  todo.Done <$> at_position (todo.Complete list id) id = Some true.
Proof.
  intros Hfree Hload Hw Hp Hid Hm1 Hm2 Hq1 Hq2 out1 out2. subst out1 out2.
  pose proof Hid as Hid2. rewrite Hp in Hid2.
  rewrite (run_patch_ok _ _ _ _ Hfree _ _ _ Hload Hid Hm1 Hq1 Hw).
  rewrite (run_patch_ok _ _ _ _ Hfree _ _ _ Hload Hid2 Hm2 Hq2 Hw).
  cbn [fst snd]. rewrite !load_release, !load_saved_same.
  repeat split.
  apply validateID_ok_iff in Hid as [_ Hrange].
  destruct (Complete_spec list id Hrange) as (_ & -> & _).
  destruct (at_position_Some list id Hrange) as [it ->]. reflexivity.
Qed.

Lemma patch_ignores_the_value_witness :
  let w := Sample.world [Sample.milk] in
  let out1 := run (todoRouter "todo.json" mu
                     (Sample.request "PATCH" "1" {[ "complete" := ["false"] ]}
                        Sample.no_body)) w in
  let out2 := run (todoRouter "todo.json" mu
                     (Sample.request "PATCH" "1" {[ "complete" := [""] ]}
                        Sample.no_body)) w in
  fst out1 = Returned (text_reply http.StatusNoContent "") /\
  fst out2 = fst out1 /\
  load "todo.json" (snd out1) = inr (todo.Complete [Sample.milk] 1) /\
  load "todo.json" (snd out2) = load "todo.json" (snd out1) /\
  todo.Done <$> at_position (todo.Complete [Sample.milk] 1) 1 = Some true.
Proof.
  apply (patch_ignores_the_value "todo.json" mu
           (Sample.request "PATCH" "1" {[ "complete" := ["false"] ]} Sample.no_body)
           (Sample.request "PATCH" "1" {[ "complete" := [""] ]} Sample.no_body)
           (Sample.world [Sample.milk]) [Sample.milk] 1 ["false"] [""]);
    vm_compute; reflexivity.
Defined.

(** Identifiers are positions, so a delete moves the last identifier out
    of range: after a successful delete of any valid identifier, a request
    for the identifier that was the last one is answered 404, whatever its
    method. *)
Theorem delete_retires_the_last_identifier
    (todoFile : string) (l : Locker) (rd r : http.Request) (w : World)
    (list : todo.List) (id : Z) :
  is_held l w = false ->
  load todoFile w = inr list ->
  write_error w todoFile = None ->
  validateID (http.Path (http.Url rd)) list = (id, None) ->
  http.Method rd = http.MethodDelete ->
  Go.Atoi (http.Path (http.Url r)) = inr (Go.len list) ->
  let out1 := run (todoRouter todoFile l rd) w in
  let out2 := run (todoRouter todoFile l r) (snd out1) in
  fst out1 = Returned (text_reply http.StatusNoContent "") /\
  fst out2 = Returned (http.Error "Not Found" http.StatusNotFound) /\
  load todoFile (snd out2) = inr (todo.Delete list id).
Proof.
  intros Hfree Hload Hw Hid Hm Hlast out1 out2. subst out1 out2.
  rewrite (run_delete_ok _ _ _ _ Hfree _ _ Hload Hid Hm Hw). cbn [fst snd].
  set (w1 := release l _).
  assert (Hfree1 : is_held l w1 = false) by apply is_held_release.
  assert (Hload1 : load todoFile w1 = inr (todo.Delete list id)).
  { subst w1. rewrite load_release. apply load_saved_same. }
  pose proof Hid as Hrange. apply validateID_ok_iff in Hrange as [_ Hrange].
  destruct (Delete_spec list id Hrange) as (Hlen & _).
  assert (Hv : validateID (http.Path (http.Url r)) (todo.Delete list id) =
               (Go.len list, Some (Errorf ErrNoFound (IDNotFound (Go.len list))))).
  { unfold validateID. rewrite Hlast, Hlen.
    replace (Go.len list <? 1) with false by (symmetry; apply Z.ltb_ge; lia).
    replace (Go.len list >? Go.len list - 1) with true
      by (symmetry; rewrite Z.gtb_ltb; apply Z.ltb_lt; lia).
    reflexivity. }
  assert (Hne : String.eqb (http.Path (http.Url r)) "" = false).
  { destruct (http.Path (http.Url r)); [discriminate Hlast | reflexivity]. }
  rewrite (run_todoRouter _ _ _ _ Hfree1).
  unfold router_result, answered_json, stored, failed.
  rewrite Hload1, Hne, Hv. cbn [errors_Is wrapped Sentinel_eqb fst snd].
  split; [reflexivity|]. split; [reflexivity|].
  unfold loaded. ask. exact Hload1.
Qed.

Lemma delete_retires_witness :
  let w := Sample.world [Sample.milk; Sample.eggs] in
  let out1 := run (todoRouter "todo.json" mu
                     (Sample.request "DELETE" "1" ∅ Sample.no_body)) w in
  let out2 := run (todoRouter "todo.json" mu
                     (Sample.request "GET" "2" ∅ Sample.no_body)) (snd out1) in
  fst out1 = Returned (text_reply http.StatusNoContent "") /\
  fst out2 = Returned (http.Error "Not Found" http.StatusNotFound) /\
  load "todo.json" (snd out2) = inr (todo.Delete [Sample.milk; Sample.eggs] 1).
Proof.
  apply (delete_retires_the_last_identifier "todo.json" mu
           (Sample.request "DELETE" "1" ∅ Sample.no_body)
           (Sample.request "GET" "2" ∅ Sample.no_body)
           (Sample.world [Sample.milk; Sample.eggs])
           [Sample.milk; Sample.eggs] 1);
    vm_compute; reflexivity.
Defined.
